(** * Wrapped cryptographic materials and the materials-provider base class

    A shallow embedding of
      - [dynamodb_encryption_sdk/materials/wrapped.py]
        ([WrappedCryptographicMaterials]) and
      - [dynamodb_encryption_sdk/material_providers/__init__.py]
        ([CryptographicMaterialsProvider]),
    under Python 3 semantics: [str] and [bytes] are different types,
    [base64.b64encode] returns [bytes], [//] is floor division.

    Python dictionaries are objects of a store and are passed by reference;
    the delegated keys are capabilities whose [wrap], [unwrap] and [generate]
    calls are recorded in a call log. *)

From Stdlib Require Import ZArith NArith Strings.Byte Ascii String List Lia Bool.
From stdpp Require Import gmap strings list fin_maps.

Set Warnings "-register-all".

(** ** Bytes *)

Abbreviation bytes := (list byte).

Definition byte_of_N (n : N) : byte :=
  match Byte.of_N (n mod 256)%N with
  | Some b => b
  | None => x00
  end.

Definition all_bytes : bytes :=
  map byte_of_N (map N.of_nat (seq 0 256)).

(** ** The standard library's [base64] module *)

Module Base64.

Local Open Scope N_scope.

(** [binascii.table_b2a_base64]: the sixty-four characters of the standard
    alphabet. *)
Definition table_b2a_base64 : string :=
  "ABCDEFGHIJKLMNOPQRSTUVWXYZabcdefghijklmnopqrstuvwxyz0123456789+/"%string.

Definition BASE64_PAD : byte := "="%byte.

Definition b2a (n : N) : byte :=
  match String.get (N.to_nat n) table_b2a_base64 with
  | Some c => byte_of_ascii c
  | None => BASE64_PAD
  end.

(** [binascii.table_a2b_base64]: the value of an alphabet character, [None]
    for every other byte. *)
Definition a2b (c : byte) : option N :=
  let n := Byte.to_N c in
  if (65 <=? n) && (n <=? 90) then Some (n - 65)
  else if (97 <=? n) && (n <=? 122) then Some (n - 97 + 26)
  else if (48 <=? n) && (n <=? 57) then Some (n - 48 + 52)
  else if n =? 43 then Some 62
  else if n =? 47 then Some 63
  else None.

(** The inner [while leftbits >= 6] loop of [binascii.b2a_base64]; it runs
    at most twice, since at most twelve bits are pending. *)
Fixpoint drain (fuel : nat) (leftchar leftbits : N) : bytes * N :=
  match fuel with
  | O => ([], leftbits)
  | S fuel' =>
      if 6 <=? leftbits then
        let this_ch := N.land (N.shiftr leftchar (leftbits - 6)) 63 in
        let '(out, lb) := drain fuel' leftchar (leftbits - 6) in
        (b2a this_ch :: out, lb)
      else ([], leftbits)
  end.

(** [binascii.b2a_base64(data, newline=False)].  [leftchar] keeps only the
    [leftbits] bits that were not emitted yet; the C code leaves the
    emitted bits in place and never reads them again. *)
Fixpoint b2a_loop (data : bytes) (leftchar leftbits : N) : bytes :=
  match data with
  | [] =>
      if leftbits =? 2 then
        [b2a (N.shiftl (N.land leftchar 3) 4); BASE64_PAD; BASE64_PAD]
      else if leftbits =? 4 then
        [b2a (N.shiftl (N.land leftchar 15) 2); BASE64_PAD]
      else []
  | b :: rest =>
      let leftchar := N.lor (N.shiftl leftchar 8) (Byte.to_N b) in
      let leftbits := leftbits + 8 in
      let '(out, leftbits) := drain 2 leftchar leftbits in
      out ++ b2a_loop rest (N.land leftchar (N.ones leftbits)) leftbits
  end.

(** [base64.b64encode(s)]: the result is a [bytes] object. *)
Definition b64encode (s : bytes) : bytes := b2a_loop s 0 0.

Inductive a2b_error := IncorrectPadding | InvalidLength.

(** [binascii.a2b_base64(data)] in its default, non-strict mode: bytes
    outside the alphabet are skipped, a complete pad sequence ends the
    input, and an incomplete last quad is an error. *)
Fixpoint a2b_loop (data : bytes) (quad_pos leftchar pads : N) (out : bytes)
  : a2b_error + bytes :=
  match data with
  | [] =>
      if quad_pos =? 0 then inr out
      else if quad_pos =? 1 then inl InvalidLength
      else inl IncorrectPadding
  | c :: rest =>
      if Byte.eqb c BASE64_PAD then
        if 2 <=? quad_pos then
          if 4 <=? quad_pos + (pads + 1) then inr out
          else a2b_loop rest quad_pos leftchar (pads + 1) out
        else a2b_loop rest quad_pos leftchar pads out
      else
        match a2b c with
        | None => a2b_loop rest quad_pos leftchar pads out
        | Some this_ch =>
            if quad_pos =? 0 then
              a2b_loop rest 1 this_ch 0 out
            else if quad_pos =? 1 then
              a2b_loop rest 2 (N.land this_ch 15) 0
                (out ++ [byte_of_N (N.lor (N.shiftl leftchar 2) (N.shiftr this_ch 4))])
            else if quad_pos =? 2 then
              a2b_loop rest 3 (N.land this_ch 3) 0
                (out ++ [byte_of_N (N.lor (N.shiftl leftchar 4) (N.shiftr this_ch 2))])
            else
              a2b_loop rest 0 0 0
                (out ++ [byte_of_N (N.lor (N.shiftl leftchar 6) this_ch)])
        end
  end.

Definition a2b_base64 (data : bytes) : a2b_error + bytes :=
  a2b_loop data 0 0 0 [].

End Base64.

(** ** Decidable checks on bytes, for the proof that decoding inverts encoding *)

Module Base64Checks.

Import Base64.
Local Open Scope N_scope.

(** A sextet decodes to itself and is not the pad character. *)
Definition sextet_ok (y : N) : bool :=
  match a2b (b2a y) with
  | Some v => (v =? y) && negb (Byte.eqb (b2a y) BASE64_PAD)
  | None => false
  end.

(** The facts about one, or two consecutive, input bytes that the three
    phases of the encoder rely on. *)
Definition first_ok (b : byte) : bool :=
  let n := Byte.to_N b in
  let y := N.land (N.shiftr n 2) 63 in
  sextet_ok y && (y =? N.shiftr n 2) && (N.land n (N.ones 2) =? N.land n 3).

Definition second_ok (b b' : byte) : bool :=
  let lc := N.lor (N.shiftl (N.land (Byte.to_N b) 3) 8) (Byte.to_N b') in
  let y := N.land (N.shiftr lc 4) 63 in
  sextet_ok y
  && Byte.eqb (byte_of_N (N.lor (N.shiftl (N.shiftr (Byte.to_N b) 2) 2) (N.shiftr y 4))) b
  && (N.land y 15 =? N.shiftr (Byte.to_N b') 4)
  && (N.land lc (N.ones 4) =? N.land (Byte.to_N b') 15).

Definition third_ok (b b' : byte) : bool :=
  let lc := N.lor (N.shiftl (N.land (Byte.to_N b) 15) 8) (Byte.to_N b') in
  let y := N.land (N.shiftr lc 6) 63 in
  let z := N.land (N.shiftr lc 0) 63 in
  sextet_ok y && sextet_ok z
  && Byte.eqb (byte_of_N (N.lor (N.shiftl (N.shiftr (Byte.to_N b) 4) 4) (N.shiftr y 2))) b
  && Byte.eqb (byte_of_N (N.lor (N.shiftl (N.land y 3) 6) z)) b'
  && (N.land lc (N.ones 0) =? 0).

Definition tail2_ok (b : byte) : bool :=
  let y := N.shiftl (N.land (N.land (Byte.to_N b) 3) 3) 4 in
  sextet_ok y
  && Byte.eqb (byte_of_N (N.lor (N.shiftl (N.shiftr (Byte.to_N b) 2) 2) (N.shiftr y 4))) b.

Definition tail4_ok (b : byte) : bool :=
  let y := N.shiftl (N.land (N.land (Byte.to_N b) 15) 15) 2 in
  sextet_ok y
  && Byte.eqb (byte_of_N (N.lor (N.shiftl (N.shiftr (Byte.to_N b) 4) 4) (N.shiftr y 2))) b.

End Base64Checks.

(** ** Python values

    A [str] is a sequence of code points; the model covers the code points
    below 256, one per character of a Rocq [string].  A [bytes] object is a
    list of bytes.  Both are immutable. *)

Inductive pyval :=
| PyStr (s : string)
| PyBytes (b : bytes).

Definition is_str (v : pyval) : bool :=
  match v with
  | PyStr _ => true
  | PyBytes _ => false
  end.

(** Exceptions.  [binascii_Error] is a subclass of [ValueError];
    [OtherError] stands for whatever else a delegated key may raise. *)
Inductive exn :=
| WrappingError (msg : string)
| UnwrappingError (msg : string)
| AttributeError (msg : string)
| ValueError (msg : string)
| TypeError (msg : string)
| KeyError (k : string)
| IndexError (msg : string)
| binascii_Error (e : Base64.a2b_error)
| ReferenceError (msg : string)
| OtherError (name : string).

Inductive result (A : Type) :=
| Ok (a : A)
| Raise (e : exn).

Arguments Ok {A} a.
Arguments Raise {A} e.

Module Str.

Local Open Scope Z_scope.

(** [s.split(sep, 1)]: at most one split, at the first [sep]. *)
Fixpoint split1 (sep : ascii) (s : string) : list string :=
  match s with
  | EmptyString => [EmptyString]
  | String c s' =>
      if Ascii.eqb c sep then [EmptyString; s']
      else
        match split1 sep s' with
        | hd :: tl => String c hd :: tl
        | [] => [String c EmptyString]
        end
  end.

(** White space for [int()]: [Py_ISSPACE] on ASCII, and the two Unicode
    spaces below 256 (NEL and NBSP), which [int()] maps to a blank. *)
Definition is_space (c : ascii) : bool :=
  let n := Z.of_N (N_of_ascii c) in
  ((9 <=? n) && (n <=? 13)) || (n =? 32) || (n =? 133) || (n =? 160).

Definition digit_of (c : ascii) : option Z :=
  let n := Z.of_N (N_of_ascii c) in
  if (48 <=? n) && (n <=? 57) then Some (n - 48) else None.

Fixpoint lstrip (s : string) : string :=
  match s with
  | EmptyString => EmptyString
  | String c s' => if is_space c then lstrip s' else s
  end.

Inductive prev := PStart | PDigit | PUnderscore.

Definition finish (acc : Z) (p : prev) (rest : string) : option (Z * string) :=
  match p with
  | PDigit => Some (acc, rest)
  | _ => None
  end.

(** The digit scan of [PyLong_FromString] in base ten: digits, with single
    underscores between digits only. *)
Fixpoint scan (s : string) (acc : Z) (p : prev) : option (Z * string) :=
  match s with
  | EmptyString => finish acc p s
  | String c s' =>
      match digit_of c with
      | Some d => scan s' (10 * acc + d) PDigit
      | None =>
          if Ascii.eqb c "_"%char then
            match p with
            | PDigit => scan s' acc PUnderscore
            | _ => None
            end
          else finish acc p s
      end
  end.

(** [int(s)] for a [str]: optional white space, an optional sign, the
    digits, optional white space; [None] stands for [ValueError]. *)
Definition int (s : string) : option Z :=
  let s1 := lstrip s in
  let '(sign, s2) :=
    match s1 with
    | String "+"%char r => (1, r)
    | String "-"%char r => (-1, r)
    | _ => (1, s1)
    end in
  match scan s2 0 PStart with
  | Some (v, rest) =>
      match lstrip rest with
      | EmptyString => Some (sign * v)
      | _ => None
      end
  | None => None
  end.

Definition is_ascii (s : string) : bool :=
  forallb (fun c => (N_of_ascii c <? 128)%N) (list_ascii_of_string s).

End Str.

(** [base64.b64decode(s)]: a [str] argument is encoded as ASCII first, a
    [bytes] argument is taken as it is. *)
Definition b64decode (s : pyval) : result bytes :=
  match s with
  | PyStr t =>
      if Str.is_ascii t then
        match Base64.a2b_base64 (list_byte_of_string t) with
        | inr b => Ok b
        | inl e => Raise (binascii_Error e)
        end
      else Raise (ValueError "string argument should contain only ASCII characters")
  | PyBytes b =>
      match Base64.a2b_base64 b with
      | inr b => Ok b
      | inl e => Raise (binascii_Error e)
      end
  end.

(** ** The store, the call log and the monad of the embedding *)

Abbreviation loc := positive.
Abbreviation dict := (gmap string pyval).

(** Modelled from the spec: [identifiers.EncryptionKeyTypes], which is not
    among the sources; the spec gives the key kinds as
    [enum{SYMMETRIC, ASYMMETRIC}]. *)
Inductive EncryptionKeyTypes := SYMMETRIC | ASYMMETRIC.

(** Modelled from the spec: [delegated_keys.DelegatedKey], which is not among
    the sources.  A key exposes its native algorithm identifier and its raw
    bytes, and the capabilities [wrap] and [unwrap]; what they compute is the
    key's own business. *)
Inductive DelegatedKey := mkDelegatedKey {
  algorithm : string;
  key : bytes;
  wrap : pyval -> bytes -> option bytes -> result bytes;
  unwrap : pyval -> bytes -> string -> EncryptionKeyTypes -> option bytes
           -> result DelegatedKey
}.

(** The calls made on delegated-key capabilities, with their arguments. *)
Inductive Call :=
| CallGenerate (algorithm : string) (key_length : option Z)
| CallWrap (algorithm : pyval) (content_key : bytes) (aad : option bytes)
| CallUnwrap (algorithm : pyval) (wrapped_key : bytes)
    (wrapped_key_algorithm : string) (wrapped_key_type : EncryptionKeyTypes)
    (aad : option bytes).

Definition is_generate (c : Call) : bool :=
  match c with CallGenerate _ _ => true | _ => false end.
Definition is_wrap (c : Call) : bool :=
  match c with CallWrap _ _ _ => true | _ => false end.
Definition is_unwrap (c : Call) : bool :=
  match c with CallUnwrap _ _ _ _ _ => true | _ => false end.

(** The state a construction runs in: the dictionaries allocated so far, the
    calls made so far (oldest first), and the number of keys generated so far
    (the key generator draws fresh randomness on every call). *)
Record state := mkState {
  heap : gmap loc dict;
  calls : list Call;
  entropy : nat
}.

Definition M (A : Type) : Type := state -> result A * state.

Definition ret {A} (a : A) : M A := fun s => (Ok a, s).

Definition raise {A} (e : exn) : M A := fun s => (Raise e, s).

Definition bind {A B} (m : M A) (k : A -> M B) : M B :=
  fun s =>
    match m s with
    | (Ok a, s') => k a s'
    | (Raise e, s') => (Raise e, s')
    end.

Notation "'let*' x ':=' m 'in' k" := (bind m (fun x => k))
  (at level 10, x name, m at level 100, k at level 200).

Definition lift {A} (r : result A) : M A := fun s => (r, s).

Definition log (c : Call) : M unit :=
  fun s => (Ok tt, mkState (heap s) (calls s ++ [c]) (entropy s)).

(** *** Dictionaries in the store *)

Definition read (l : loc) : M dict :=
  fun s =>
    match heap s !! l with
    | Some d => (Ok d, s)
    | None => (Raise (ReferenceError "no such object"), s)
    end.

Definition alloc (d : dict) : M loc :=
  fun s =>
    let l := fresh (dom (heap s)) in
    (Ok l, mkState (<[l := d]> (heap s)) (calls s) (entropy s)).

(** [dict()] *)
Definition dict_new : M loc := alloc ∅.

(** [d.get(k, default)] *)
Definition dict_get (l : loc) (k : string) (dflt : pyval) : M pyval :=
  let* d := read l in
  match d !! k with
  | Some v => ret v
  | None => ret dflt
  end.

(** [k in d] *)
Definition dict_contains (l : loc) (k : string) : M bool :=
  let* d := read l in ret (bool_decide (k ∈ dom d)).

(** [d[k]] *)
Definition dict_getitem (l : loc) (k : string) : M pyval :=
  let* d := read l in
  match d !! k with
  | Some v => ret v
  | None => raise (KeyError k)
  end.

(** [d.copy()]: a new dictionary with the same entries. *)
Definition dict_copy (l : loc) : M loc :=
  let* d := read l in alloc d.

(** [copy.deepcopy(d)].  The values of a material description are [str] and
    [bytes] objects, which are immutable and which [deepcopy] does not copy,
    so that the deep copy is a new dictionary with the same entries. *)
Definition deepcopy (l : loc) : M loc :=
  let* d := read l in alloc d.

(** [d.update({k1: v1, ...})]: the entries are written in place, in order. *)
Definition dict_update (l : loc) (kvs : list (string * pyval)) : M unit :=
  fun s =>
    match heap s !! l with
    | Some d =>
        (Ok tt,
         mkState (<[l := foldl (fun d kv => <[kv.1 := kv.2]> d) d kvs]> (heap s))
           (calls s) (entropy s))
    | None => (Raise (ReferenceError "no such object"), s)
    end.

(** *** Calls on the delegated-key capabilities *)

(** [k.wrap(algorithm=..., content_key=..., additional_associated_data=...)] *)
Definition call_wrap (k : DelegatedKey) (alg : pyval) (content_key : bytes)
    (aad : option bytes) : M bytes :=
  let* _ := log (CallWrap alg content_key aad) in
  lift (wrap k alg content_key aad).

(** [k.unwrap(algorithm=..., wrapped_key=..., wrapped_key_algorithm=...,
    wrapped_key_type=..., additional_associated_data=...)] *)
Definition call_unwrap (k : DelegatedKey) (alg : pyval) (wrapped_key : bytes)
    (wrapped_key_algorithm : string) (wrapped_key_type : EncryptionKeyTypes)
    (aad : option bytes) : M DelegatedKey :=
  let* _ := log (CallUnwrap alg wrapped_key wrapped_key_algorithm wrapped_key_type aad) in
  lift (unwrap k alg wrapped_key wrapped_key_algorithm wrapped_key_type aad).

(** *** Lists, [try]/[except] and conversions *)

(** [l[i]] *)
Definition list_getitem (l : list string) (i : nat) : M string :=
  match l !! i with
  | Some x => ret x
  | None => raise (IndexError "list index out of range")
  end.

Definition is_IndexError (e : exn) : bool :=
  match e with IndexError _ => true | _ => false end.

(** [try: body  except E: handler] *)
Definition try_except {A} (body : M A) (caught : exn -> bool) (handler : M A) : M A :=
  fun s =>
    match body s with
    | (Ok a, s') => (Ok a, s')
    | (Raise e, s') => if caught e then handler s' else (Raise e, s')
    end.

(** [v.split('/', 1)]: the separator is a [str], so that a [bytes] receiver
    raises [TypeError]. *)
Definition split_slash (v : pyval) : M (list string) :=
  match v with
  | PyStr s => ret (Str.split1 "/" s)
  | PyBytes _ => raise (TypeError "a bytes-like object is required, not 'str'")
  end.

(** [int(s)] *)
Definition int (s : string) : M Z :=
  match Str.int s with
  | Some n => ret n
  | None => raise (ValueError "invalid literal for int() with base 10")
  end.

(** ** [materials/wrapped.py] *)

(** Modelled from the spec: the members of
    [internal.identifiers.MaterialDescriptionKeys] that [wrapped.py] uses;
    the enumeration is not among the sources.  The strings they stand for
    are a parameter of the development ([value] below). *)
Inductive MaterialDescriptionKeys :=
| WRAPPED_DATA_KEY
| CONTENT_ENCRYPTION_ALGORITHM
| CONTENT_KEY_WRAPPING_ALGORITHM.

Definition _DEFAULT_CONTENT_ENCRYPTION_ALGORITHM : string := "AES/256".

Definition _WRAPPING_TRANSFORMATION : gmap string string :=
  <["AES" := "AESWrap"]>
    (<["RSA" := "RSA/ECB/OAEPWithSHA-256AndMGF1Padding"]> ∅).

(** The attributes of an instance that are set before the content key is
    prepared. *)
Record attributes := mkAttributes {
  _signing_key : DelegatedKey;
  _wrapping_key : option DelegatedKey;
  _unwrapping_key : option DelegatedKey;
  _material_description : loc;
  _content_key_algorithm : pyval
}.

Record WrappedCryptographicMaterials := mkWrappedCryptographicMaterials {
  self_attributes :> attributes;
  _content_key : DelegatedKey
}.

Section Wrapped.

(** [MaterialDescriptionKeys.X.value] *)
Variable value : MaterialDescriptionKeys -> string.

(** [JceNameLocalDelegatedKey.generate(algorithm, key_length)], which is
    not among the sources; the last argument is the number of keys
    generated before this one. *)
Variable generate : string -> option Z -> nat -> result DelegatedKey.

Definition call_generate (alg : string) (key_length : option Z) : M DelegatedKey :=
  fun s =>
    (generate alg key_length (entropy s),
     mkState (heap s) (calls s ++ [CallGenerate alg key_length]) (S (entropy s))).

Definition material_description (self : attributes) : loc :=
  _material_description self.

Definition _wrapping_transformation (algorithm : string) : string :=
  match _WRAPPING_TRANSFORMATION !! algorithm with
  | Some t => t
  | None => algorithm
  end.

Definition _content_key_from_material_description (self : attributes)
  : M DelegatedKey :=
  match _unwrapping_key self with
  | None =>
      raise (UnwrappingError
        "Cryptographic materials cannot be loaded from material description: no unwrapping key")
  | Some unwrapping_key =>
      let* wrapping_algorithm :=
        dict_get (material_description self)
          (value CONTENT_KEY_WRAPPING_ALGORITHM)
          (PyStr (algorithm unwrapping_key)) in
      let* encoded :=
        dict_getitem (material_description self) (value WRAPPED_DATA_KEY) in
      let* wrapped_key := lift (b64decode encoded) in
      let* parts := split_slash (_content_key_algorithm self) in
      let* content_key_algorithm := list_getitem parts 0 in
      call_unwrap unwrapping_key wrapping_algorithm wrapped_key
        content_key_algorithm SYMMETRIC None
  end.

Definition _generate_content_key (self : attributes) : M (DelegatedKey * loc) :=
  match _wrapping_key self with
  | None =>
      raise (WrappingError "Cryptographic materials cannot be generated: no wrapping key")
  | Some wrapping_key =>
      let* wrapping_algorithm :=
        dict_get (material_description self)
          (value CONTENT_KEY_WRAPPING_ALGORITHM)
          (PyStr (_wrapping_transformation (algorithm wrapping_key))) in
      let* args := split_slash (_content_key_algorithm self) in
      let* content_algorithm := list_getitem args 0 in
      let* content_key_length :=
        try_except
          (let* a := list_getitem args 1 in
           let* n := int a in
           ret (Some (n / 8)%Z))
          is_IndexError
          (ret None) in
      let* content_key := call_generate content_algorithm content_key_length in
      let* wrapped_key :=
        call_wrap wrapping_key wrapping_algorithm (key content_key) None in
      let* new_material_description := dict_copy (material_description self) in
      let* _ :=
        dict_update new_material_description
          [(value WRAPPED_DATA_KEY, PyBytes (Base64.b64encode wrapped_key));
           (value CONTENT_ENCRYPTION_ALGORITHM, _content_key_algorithm self);
           (value CONTENT_KEY_WRAPPING_ALGORITHM, wrapping_algorithm)] in
      ret (content_key, new_material_description)
  end.

(** [__attrs_post_init__], run on the attributes that the generated
    [__init__] has set. *)
Definition __attrs_post_init__ (signing_key : DelegatedKey)
    (wrapping_key unwrapping_key : option DelegatedKey) (md : loc)
  : M WrappedCryptographicMaterials :=
  let* content_key_algorithm :=
    dict_get md (value CONTENT_ENCRYPTION_ALGORITHM)
      (PyStr _DEFAULT_CONTENT_ENCRYPTION_ALGORITHM) in
  let self :=
    mkAttributes signing_key wrapping_key unwrapping_key md content_key_algorithm in
  let* recover := dict_contains (material_description self) (value WRAPPED_DATA_KEY) in
  if (recover : bool) then
    let* content_key := _content_key_from_material_description self in
    ret (mkWrappedCryptographicMaterials self content_key)
  else
    let* generated := _generate_content_key self in
    let '(content_key, new_material_description) := generated in
    ret (mkWrappedCryptographicMaterials
           (mkAttributes signing_key wrapping_key unwrapping_key
              new_material_description content_key_algorithm)
           content_key).

(** The constructor generated by [attr.s]: the default of
    [material_description] is a new [dict()], the converter
    [copy.deepcopy] is applied to the argument or to the default, the
    validators hold by typing, and [__attrs_post_init__] runs last. *)
Definition __init__ (signing_key : DelegatedKey)
    (wrapping_key unwrapping_key : option DelegatedKey)
    (material_description : option loc)
  : M WrappedCryptographicMaterials :=
  let* given :=
    match material_description with
    | Some l => ret l
    | None => dict_new
    end in
  let* md := deepcopy given in
  __attrs_post_init__ signing_key wrapping_key unwrapping_key md.

Definition encryption_key (self : WrappedCryptographicMaterials) : DelegatedKey :=
  _content_key self.

Definition decryption_key (self : WrappedCryptographicMaterials) : DelegatedKey :=
  _content_key self.

Definition signing_key (self : WrappedCryptographicMaterials) : DelegatedKey :=
  _signing_key self.

Definition verification_key (self : WrappedCryptographicMaterials) : DelegatedKey :=
  _signing_key self.

End Wrapped.

(** ** [material_providers/__init__.py] *)

Module CryptographicMaterialsProvider.

Section Provider.

(** [structures.EncryptionContext], [materials.DecryptionMaterials] and
    [materials.EncryptionMaterials] are not among the sources; the base
    class uses none of their structure. *)
Variables EncryptionContext DecryptionMaterials EncryptionMaterials : Type.

Definition decryption_materials (encryption_context : EncryptionContext)
  : M DecryptionMaterials :=
  raise (AttributeError "No decryption materials available").

Definition encryption_materials (encryption_context : EncryptionContext)
  : M EncryptionMaterials :=
  raise (AttributeError "No encryption materials available").

Definition refresh : M unit := ret tt.

End Provider.

End CryptographicMaterialsProvider.

(** ** Vocabulary of the statements *)

(** The description an [__init__] argument denotes: the dictionary the
    reference points to, or the empty default. *)
Definition described (s : state) (md : option loc) (d : dict) : Prop :=
  match md with
  | Some l => heap s !! l = Some d
  | None => d = ∅
  end.

(** The first segment of a content-encryption-algorithm-spec. *)
Definition family (spec : string) : string :=
  match Str.split1 "/" spec with
  | hd :: _ => hd
  | [] => EmptyString
  end.

(** The key length, in bytes, that the generation path asks for. *)
Definition key_length (spec : string) : result (option Z) :=
  match Str.split1 "/" spec !! 1%nat with
  | None => Ok None
  | Some a =>
      match Str.int a with
      | Some n => Ok (Some (n / 8)%Z)
      | None => Raise (ValueError "invalid literal for int() with base 10")
      end
  end.

(** The state [s] with the calls [cs] added and [n] keys generated. *)
Definition with_calls (s : state) (cs : list Call) (n : nat) : state :=
  mkState (heap s) (calls s ++ cs) n.

(** An unwrapping key matches a wrapping key, for a transform and an
    expected algorithm, when its [unwrap] under that transform and with that
    expected algorithm gives back, as raw key material, what the wrapping
    key's [wrap] was given under the same transform.  Nothing is asked of
    the keys for other transforms or other expected algorithms, which they
    may well refuse. *)
Definition matching (wrapping_key unwrapping_key : DelegatedKey)
    (alg : pyval) (fam : string) : Prop :=
  forall content wrapped,
    wrap wrapping_key alg content None = Ok wrapped ->
    exists k,
      unwrap unwrapping_key alg wrapped fam SYMMETRIC None = Ok k
      /\ key k = content.

(** Two constructions end alike: the same exception, or instances with the
    same content key, signing key, description and algorithm spec. *)
Definition same_outcome (r r' : result WrappedCryptographicMaterials) : Prop :=
  match r, r' with
  | Ok m, Ok m' =>
      _content_key m = _content_key m'
      /\ _signing_key m = _signing_key m'
      /\ _material_description m = _material_description m'
      /\ _content_key_algorithm m = _content_key_algorithm m'
  | Raise e, Raise e' => e = e'
  | _, _ => False
  end.

(** The three recognized keys are three different strings. *)
Definition distinct_keys (value : MaterialDescriptionKeys -> string) : Prop :=
  value WRAPPED_DATA_KEY <> value CONTENT_ENCRYPTION_ALGORITHM
  /\ value WRAPPED_DATA_KEY <> value CONTENT_KEY_WRAPPING_ALGORITHM
  /\ value CONTENT_ENCRYPTION_ALGORITHM <> value CONTENT_KEY_WRAPPING_ALGORITHM.

Section Vocabulary.

Variable value : MaterialDescriptionKeys -> string.

Definition content_key_algorithm_of (d : dict) : pyval :=
  match d !! value CONTENT_ENCRYPTION_ALGORITHM with
  | Some v => v
  | None => PyStr _DEFAULT_CONTENT_ENCRYPTION_ALGORITHM
  end.

Definition generation_transform (d : dict) (wrapping_key : DelegatedKey) : pyval :=
  match d !! value CONTENT_KEY_WRAPPING_ALGORITHM with
  | Some v => v
  | None => PyStr (_wrapping_transformation (algorithm wrapping_key))
  end.

Definition recovery_transform (d : dict) (unwrapping_key : DelegatedKey) : pyval :=
  match d !! value CONTENT_KEY_WRAPPING_ALGORITHM with
  | Some v => v
  | None => PyStr (algorithm unwrapping_key)
  end.

Definition new_description (d : dict) (wrapped_key : bytes)
    (content_key_algorithm wrapping_algorithm : pyval) : dict :=
  <[value CONTENT_KEY_WRAPPING_ALGORITHM := wrapping_algorithm]>
    (<[value CONTENT_ENCRYPTION_ALGORITHM := content_key_algorithm]>
       (<[value WRAPPED_DATA_KEY := PyBytes (Base64.b64encode wrapped_key)]> d)).

(** What the five accessors of an instance show in a state. *)
Definition observe (self : WrappedCryptographicMaterials) (s : state)
  : option dict * DelegatedKey * DelegatedKey * DelegatedKey * DelegatedKey :=
  (heap s !! material_description self,
   encryption_key self, decryption_key self,
   signing_key self, verification_key self).

End Vocabulary.

(** The calls a construction has added to the log of [s]. *)
Definition new_calls (s s' : state) : list Call :=
  drop (length (calls s)) (calls s').

(** Two constructions, each with the state it ends in, end alike up to the
    location of the description: the same exception, or instances with the
    same content key, signing key and algorithm spec whose descriptions hold
    the same entries. *)
Definition alike (x x' : result WrappedCryptographicMaterials * state) : Prop :=
  match x, x' with
  | (Ok m, s), (Ok m', s') =>
      _content_key m = _content_key m'
      /\ _signing_key m = _signing_key m'
      /\ _content_key_algorithm m = _content_key_algorithm m'
      /\ heap s !! _material_description m = heap s' !! _material_description m'
  | (Raise e, _), (Raise e', _) => e = e'
  | _, _ => False
  end.

(** ** A concrete environment, for checks on concrete inputs *)

Module Demo.

(** Modelled from the spec: the names of the three recognized entries, as
    the spec writes them; the strings of
    [internal.identifiers.MaterialDescriptionKeys] are not among the
    sources. *)
Definition value (k : MaterialDescriptionKeys) : string :=
  match k with
  | WRAPPED_DATA_KEY => "wrapped-content-key"
  | CONTENT_ENCRYPTION_ALGORITHM => "content-encryption-algorithm-spec"
  | CONTENT_KEY_WRAPPING_ALGORITHM => "content-key-wrapping-algorithm"
  end.

(** A key that holds raw bytes and wraps nothing. *)
Definition raw_key (alg : string) (k : bytes) : DelegatedKey :=
  mkDelegatedKey alg k
    (fun _ _ _ => Raise (OtherError "NotImplementedError"))
    (fun _ _ _ _ _ => Raise (OtherError "NotImplementedError")).

(** A toy wrapping key: wrapping reverses the bytes, unwrapping reverses
    them back. *)
Definition reversing_key (alg : string) : DelegatedKey :=
  mkDelegatedKey alg []
    (fun _ content _ => Ok (rev content))
    (fun _ wrapped fam _ _ => Ok (raw_key fam (rev wrapped))).

(** A toy generator: the n-th key is the bytes n, n+1, ...; sixteen of
    them when no length is asked for. *)
Definition generate (alg : string) (key_length : option Z) (n : nat)
  : result DelegatedKey :=
  let len := match key_length with Some l => l | None => 16%Z end in
  Ok (raw_key alg
        (map (fun i => byte_of_N (N.of_nat (n + i))) (seq 0 (Z.to_nat len)))).

(** A toy unwrapping key that checks what it is asked for: it unwraps as
    [reversing_key] does, but only keys expected to be AES keys. *)
Definition checking_key (alg : string) : DelegatedKey :=
  mkDelegatedKey alg []
    (fun _ content _ => Ok (rev content))
    (fun _ wrapped fam _ _ =>
       if String.eqb fam "AES" then Ok (raw_key fam (rev wrapped))
       else Raise (UnwrappingError "algorithm mismatch")).

Definition signing : DelegatedKey := raw_key "HmacSHA256" [x01; x02].
Definition wrapping : DelegatedKey := reversing_key "AES".

(** The state before anything was allocated, called or generated. *)
Definition s0 : state := mkState ∅ [] 0.

(** A state whose only dictionary, at location 1, is [d]. *)
Definition holding (d : dict) : state := mkState {[1%positive := d]} [] 0.

(** A stored description: the wrapped key is the base64 text of the bytes
    1, 2, 3. *)
Definition d_stored : dict := {[value WRAPPED_DATA_KEY := PyStr "AQID"]}.

(** A description with an entry the constructor does not know. *)
Definition d_note : dict := {["note" := PyStr "kept"]}.

(** Descriptions that give the algorithm spec. *)
Definition d_spec (spec : string) : dict :=
  {[value CONTENT_ENCRYPTION_ALGORITHM := PyStr spec]}.

End Demo.

(** * Properties *)

(** ** Base64: decoding inverts encoding *)

Module Base64Facts.
Import Base64 Base64Checks.
Local Open Scope N_scope.

Lemma all_bytes_complete (b : byte) : In b all_bytes.
Proof.
  assert (H : nth_error all_bytes (N.to_nat (Byte.to_N b)) = Some b)
    by (destruct b; vm_compute; reflexivity).
  eapply nth_error_In, H.
Qed.

Lemma forall_bytes (P : byte -> bool) :
  forallb P all_bytes = true -> forall b, P b = true.
Proof.
  intros H b. rewrite forallb_forall in H. apply H, all_bytes_complete.
Qed.

Lemma forall_bytes2 (P : byte -> byte -> bool) :
  forallb (fun b => forallb (P b) all_bytes) all_bytes = true ->
  forall b b', P b b' = true.
Proof.
  intros H b b'.
  apply (forall_bytes (P b)), (forall_bytes (fun b => forallb (P b) all_bytes) H).
Qed.

Lemma sextet_ok_spec y :
  sextet_ok y = true ->
  a2b (b2a y) = Some y /\ Byte.eqb (b2a y) BASE64_PAD = false.
Proof.
  unfold sextet_ok. destruct (a2b (b2a y)) as [v|]; [|discriminate].
  intros [H1 H2]%andb_prop. apply N.eqb_eq in H1. subst v.
  split; [reflexivity|]. now apply negb_true_iff.
Qed.

(** One data character met at a known quad position. *)
Lemma a2b_loop_data c rest q lc p out n :
  a2b c = Some n -> Byte.eqb c BASE64_PAD = false ->
  a2b_loop (c :: rest) q lc p out =
    if q =? 0 then a2b_loop rest 1 n 0 out
    else if q =? 1 then
      a2b_loop rest 2 (N.land n 15) 0
        (out ++ [byte_of_N (N.lor (N.shiftl lc 2) (N.shiftr n 4))])
    else if q =? 2 then
      a2b_loop rest 3 (N.land n 3) 0
        (out ++ [byte_of_N (N.lor (N.shiftl lc 4) (N.shiftr n 2))])
    else a2b_loop rest 0 0 0 (out ++ [byte_of_N (N.lor (N.shiftl lc 6) n)]).
Proof. intros Ha Hp. cbn [a2b_loop]. rewrite Hp, Ha. reflexivity. Qed.

Lemma first_ok_all b : first_ok b = true.
Proof. apply forall_bytes. vm_compute. reflexivity. Qed.

Lemma second_ok_all b b' : second_ok b b' = true.
Proof. apply forall_bytes2. vm_compute. reflexivity. Qed.

Lemma third_ok_all b b' : third_ok b b' = true.
Proof. apply forall_bytes2. vm_compute. reflexivity. Qed.

Lemma tail2_ok_all b : tail2_ok b = true.
Proof. apply forall_bytes. vm_compute. reflexivity. Qed.

Lemma tail4_ok_all b : tail4_ok b = true.
Proof. apply forall_bytes. vm_compute. reflexivity. Qed.

Ltac split_ok H :=
  repeat match type of H with
  | (_ && _)%bool = true =>
      let H1 := fresh "Hok" in
      apply andb_prop in H; destruct H as [H H1]
  end.

Ltac use_ok :=
  repeat match goal with
  | H : sextet_ok _ = true |- _ => apply sextet_ok_spec in H; destruct H
  | H : (_ =? _) = true |- _ => apply N.eqb_eq in H
  | H : Byte.eqb _ _ = true |- _ => apply Byte.byte_dec_bl in H
  end.

Lemma b2a_loop_phase0 b rest :
  b2a_loop (b :: rest) 0 0 =
    let lc := Byte.to_N b in
    b2a (N.land (N.shiftr lc 2) 63) :: b2a_loop rest (N.land lc (N.ones 2)) 2.
Proof. reflexivity. Qed.

Lemma b2a_loop_phase2 b rest leftchar :
  b2a_loop (b :: rest) leftchar 2 =
    let lc := N.lor (N.shiftl leftchar 8) (Byte.to_N b) in
    b2a (N.land (N.shiftr lc 4) 63) :: b2a_loop rest (N.land lc (N.ones 4)) 4.
Proof. reflexivity. Qed.

Lemma b2a_loop_phase4 b rest leftchar :
  b2a_loop (b :: rest) leftchar 4 =
    let lc := N.lor (N.shiftl leftchar 8) (Byte.to_N b) in
    b2a (N.land (N.shiftr lc 6) 63) :: b2a (N.land (N.shiftr lc 0) 63)
      :: b2a_loop rest (N.land lc (N.ones 0)) 0.
Proof. reflexivity. Qed.

(** The decoder, run on what the encoder emits from any of its three
    phases, returns the bytes decoded so far, the byte that is split
    between the two machines, and the bytes still to encode. *)
Lemma a2b_b2a_loop (data : bytes) :
  (forall out, a2b_loop (b2a_loop data 0 0) 0 0 0 out = inr (out ++ data))
  /\ (forall out b,
        a2b_loop (b2a_loop data (N.land (Byte.to_N b) 3) 2)
          1 (N.shiftr (Byte.to_N b) 2) 0 out
        = inr (out ++ b :: data))
  /\ (forall out b,
        a2b_loop (b2a_loop data (N.land (Byte.to_N b) 15) 4)
          2 (N.shiftr (Byte.to_N b) 4) 0 out
        = inr (out ++ b :: data)).
Proof.
  induction data as [|b0 data (IH0 & IH2 & IH4)].
  - split; [|split].
    + intros out. cbn. now rewrite app_nil_r.
    + intros out b. pose proof (tail2_ok_all b) as H. unfold tail2_ok in H.
      cbv zeta in H. split_ok H. use_ok.
      cbn [b2a_loop N.eqb Pos.eqb].
      erewrite a2b_loop_data by eassumption. cbn [N.eqb Pos.eqb].
      match goal with Hb : byte_of_N _ = b |- _ => rewrite Hb end.
      reflexivity.
    + intros out b. pose proof (tail4_ok_all b) as H. unfold tail4_ok in H.
      cbv zeta in H. split_ok H. use_ok.
      cbn [b2a_loop N.eqb Pos.eqb].
      erewrite a2b_loop_data by eassumption. cbn [N.eqb Pos.eqb].
      match goal with Hb : byte_of_N _ = b |- _ => rewrite Hb end.
      reflexivity.
  - split; [|split].
    + intros out. pose proof (first_ok_all b0) as H. unfold first_ok in H.
      cbv zeta in H. split_ok H. use_ok.
      rewrite b2a_loop_phase0. cbv zeta.
      erewrite a2b_loop_data by eassumption. cbn [N.eqb Pos.eqb].
      repeat match goal with Hq : _ = _ |- _ => rewrite Hq end.
      apply IH2.
    + intros out b. pose proof (second_ok_all b b0) as H. unfold second_ok in H.
      cbv zeta in H. split_ok H. use_ok.
      rewrite b2a_loop_phase2. cbv zeta.
      erewrite a2b_loop_data by eassumption. cbn [N.eqb Pos.eqb].
      repeat match goal with Hq : _ = _ |- _ => rewrite Hq end.
      rewrite IH4, <- app_assoc. reflexivity.
    + intros out b. pose proof (third_ok_all b b0) as H. unfold third_ok in H.
      cbv zeta in H. split_ok H. use_ok.
      rewrite b2a_loop_phase4. cbv zeta.
      erewrite a2b_loop_data by eassumption. cbn [N.eqb Pos.eqb].
      erewrite a2b_loop_data by eassumption. cbn [N.eqb Pos.eqb].
      repeat match goal with Hq : _ = _ |- _ => rewrite Hq end.
      rewrite IH0, <- !app_assoc. reflexivity.
Qed.

(** [a2b_base64] inverts [b64encode]. *)
Lemma a2b_base64_b64encode (data : bytes) :
  a2b_base64 (b64encode data) = inr data.
Proof. apply (proj1 (a2b_b2a_loop data) []). Qed.

End Base64Facts.

Lemma b64decode_b64encode (data : bytes) :
  b64decode (PyBytes (Base64.b64encode data)) = Ok data.
Proof. cbn. now rewrite Base64Facts.a2b_base64_b64encode. Qed.

(** ** The constructor, path by path *)

Lemma split1_cons sep s : exists hd tl, Str.split1 sep s = hd :: tl.
Proof.
  induction s as [|c s IH]; cbn; [eauto|].
  destruct (Ascii.eqb c sep); [eauto|].
  destruct IH as (hd & tl & ->). eauto.
Qed.

Section WrappedFacts.

Variable value : MaterialDescriptionKeys -> string.
Variable generate : string -> option Z -> nat -> result DelegatedKey.

(** The generated [__init__] copies the description into a new dictionary
    and hands over to [__attrs_post_init__]; the copy and the state it
    lives in depend on the description argument only. *)
Lemma init_post_init md s d :
  described s md d ->
  exists l1 s1,
    (forall sk wk uk,
        __init__ value generate sk wk uk md s
        = __attrs_post_init__ value generate sk wk uk l1 s1)
    /\ heap s1 !! l1 = Some d
    /\ heap s !! l1 = None
    /\ (forall l, is_Some (heap s !! l) -> heap s1 !! l = heap s !! l)
    /\ calls s1 = calls s /\ entropy s1 = entropy s.
Proof.
  intros Hd. destruct md as [l|]; simpl in Hd.
  - eexists _, _. split.
    { intros sk wk uk. unfold __init__, deepcopy. unfold bind, ret, read, alloc.
      simpl. rewrite Hd. reflexivity. }
    simpl.
    assert (Hf : heap s !! fresh (dom (heap s)) = None)
      by apply not_elem_of_dom, is_fresh.
    split; [apply lookup_insert_eq|]. split; [exact Hf|]. split; [|done].
    intros l' [x Hx]. rewrite lookup_insert_ne; [done|]. congruence.
  - subst d. eexists _, _. split.
    { intros sk wk uk.
      unfold __init__, deepcopy, dict_new. unfold bind, ret, read, alloc.
      simpl. rewrite lookup_insert_eq. reflexivity. }
    simpl.
    set (l0 := fresh (dom (heap s))).
    set (l1 := fresh _).
    assert (Hf0 : heap s !! l0 = None) by apply not_elem_of_dom, is_fresh.
    assert (Hf1 : <[l0:=∅]> (heap s) !! l1 = None) by apply not_elem_of_dom, is_fresh.
    split; [apply lookup_insert_eq|].
    split. { rewrite lookup_insert_None in Hf1. tauto. }
    split; [|done].
    intros l' [x Hx]. rewrite !lookup_insert_ne; [done| congruence |].
    intros ->. rewrite lookup_insert_None in Hf1. destruct Hf1. congruence.
Qed.

Lemma post_init_recovery sk wk uk l s d enc :
  heap s !! l = Some d ->
  d !! value WRAPPED_DATA_KEY = Some enc ->
  __attrs_post_init__ value generate sk wk uk l s =
    match uk with
    | None =>
        (Raise (UnwrappingError
           "Cryptographic materials cannot be loaded from material description: no unwrapping key"), s)
    | Some u =>
        match b64decode enc with
        | Raise e => (Raise e, s)
        | Ok wrapped =>
            match content_key_algorithm_of value d with
            | PyBytes _ =>
                (Raise (TypeError "a bytes-like object is required, not 'str'"), s)
            | PyStr spec =>
                let alg := recovery_transform value d u in
                let s' :=
                  with_calls s [CallUnwrap alg wrapped (family spec) SYMMETRIC None]
                    (entropy s) in
                match unwrap u alg wrapped (family spec) SYMMETRIC None with
                | Raise e => (Raise e, s')
                | Ok k =>
                    (Ok (mkWrappedCryptographicMaterials
                           (mkAttributes sk wk uk l (PyStr spec)) k), s')
                end
            end
        end
    end.
Proof.
  intros Hl Hw.
  assert (Hin : bool_decide (value WRAPPED_DATA_KEY ∈ dom d) = true).
  { apply bool_decide_eq_true, elem_of_dom. eauto. }
  unfold __attrs_post_init__, content_key_algorithm_of.
  generalize _DEFAULT_CONTENT_ENCRYPTION_ALGORITHM as dflt. intros dflt.
  unfold _content_key_from_material_description,
    material_description, dict_get, dict_contains, dict_getitem, call_unwrap,
    list_getitem, split_slash, log, lift, read, bind, ret, raise,
    recovery_transform, with_calls, family.
  cbn. rewrite Hl. cbn.
  destruct (d !! value CONTENT_ENCRYPTION_ALGORITHM) as [[spec|bs]|] eqn:Hc; cbn;
    rewrite Hl; cbn; rewrite Hin; cbn.
  all: destruct uk as [u|]; cbn; [|reflexivity].
  all: rewrite Hl; cbn.
  all: destruct (d !! value CONTENT_KEY_WRAPPING_ALGORITHM) as [wa|] eqn:Ha; cbn.
  all: rewrite Hl; cbn; rewrite Hw; cbn.
  all: destruct (b64decode enc) as [wrapped|e]; cbn; try reflexivity.
  all: match goal with
       | |- context [Str.split1 "/" ?x] =>
           destruct (split1_cons "/" x) as (hd & tl & ->); cbn
       end.
  all: destruct (unwrap _ _ _ _ _ _); reflexivity.
Qed.

Lemma post_init_generation sk wk uk l s d :
  heap s !! l = Some d ->
  d !! value WRAPPED_DATA_KEY = None ->
  __attrs_post_init__ value generate sk wk uk l s =
    match wk with
    | None =>
        (Raise (WrappingError
           "Cryptographic materials cannot be generated: no wrapping key"), s)
    | Some w =>
        match content_key_algorithm_of value d with
        | PyBytes _ =>
            (Raise (TypeError "a bytes-like object is required, not 'str'"), s)
        | PyStr spec =>
            match key_length spec with
            | Raise e => (Raise e, s)
            | Ok len =>
                let alg := generation_transform value d w in
                let g := CallGenerate (family spec) len in
                match generate (family spec) len (entropy s) with
                | Raise e => (Raise e, with_calls s [g] (S (entropy s)))
                | Ok ck =>
                    let s' :=
                      with_calls s [g; CallWrap alg (key ck) None] (S (entropy s)) in
                    match wrap w alg (key ck) None with
                    | Raise e => (Raise e, s')
                    | Ok wrapped =>
                        let l' := fresh (dom (heap s)) in
                        (Ok (mkWrappedCryptographicMaterials
                               (mkAttributes sk wk uk l' (PyStr spec)) ck),
                         mkState
                           (<[l' := new_description value d wrapped (PyStr spec) alg]> (heap s))
                           (calls s') (entropy s'))
                    end
                end
            end
        end
    end.
Proof.
  intros Hl Hw.
  assert (Hin : bool_decide (value WRAPPED_DATA_KEY ∈ dom d) = false).
  { apply bool_decide_eq_false. rewrite elem_of_dom, Hw. intros [? ?]. discriminate. }
  unfold __attrs_post_init__, content_key_algorithm_of.
  generalize _DEFAULT_CONTENT_ENCRYPTION_ALGORITHM as dflt. intros dflt.
  unfold _generate_content_key, material_description,
    dict_get, dict_contains, dict_copy, dict_update, call_wrap, call_generate,
    try_except, list_getitem, int, split_slash, alloc,
    log, lift, read, bind, ret, raise,
    generation_transform, with_calls, family, key_length, new_description.
  cbn. rewrite Hl. cbn.
  destruct (d !! value CONTENT_ENCRYPTION_ALGORITHM) as [[spec|bs]|] eqn:Hc; cbn;
    rewrite Hl; cbn; rewrite Hin; cbn.
  all: destruct wk as [w|]; cbn; [|reflexivity].
  all: rewrite Hl; cbn.
  all: destruct (d !! value CONTENT_KEY_WRAPPING_ALGORITHM) as [wa|] eqn:Ha; cbn.
  all: try reflexivity.
  all: match goal with
       | |- context [Str.split1 "/" ?x] =>
           destruct (split1_cons "/" x) as (hd & tl & ->); cbn
       end.
  all: destruct tl as [|a tl]; cbn;
         [|destruct (Str.int a) as [n|]; cbn; [|reflexivity]].
  all: destruct (generate _ _ _) as [ck|e]; cbn; [|reflexivity].
  all: destruct (wrap _ _ _ _) as [wrapped|e]; cbn;
         [|rewrite <- app_assoc; reflexivity].
  all: rewrite Hl; cbn; rewrite lookup_insert_eq; cbn.
  all: rewrite insert_insert_eq, <- app_assoc; reflexivity.
Qed.

End WrappedFacts.

(** ** The claims *)

Section DescriptionFacts.

Variable value : MaterialDescriptionKeys -> string.

Lemma new_description_wrapping_algorithm d w c a :
  new_description value d w c a !! value CONTENT_KEY_WRAPPING_ALGORITHM = Some a.
Proof. apply lookup_insert_eq. Qed.

Lemma new_description_content_algorithm d w c a :
  distinct_keys value ->
  new_description value d w c a !! value CONTENT_ENCRYPTION_ALGORITHM = Some c.
Proof.
  intros (_ & _ & H). unfold new_description.
  rewrite lookup_insert_ne by congruence. apply lookup_insert_eq.
Qed.

Lemma new_description_wrapped_key d w c a :
  distinct_keys value ->
  new_description value d w c a !! value WRAPPED_DATA_KEY
  = Some (PyBytes (Base64.b64encode w)).
Proof.
  intros (H1 & H2 & _). unfold new_description.
  rewrite !lookup_insert_ne by congruence. apply lookup_insert_eq.
Qed.

Lemma new_description_other d w c a k :
  k <> value WRAPPED_DATA_KEY ->
  k <> value CONTENT_ENCRYPTION_ALGORITHM ->
  k <> value CONTENT_KEY_WRAPPING_ALGORITHM ->
  new_description value d w c a !! k = d !! k.
Proof.
  intros H1 H2 H3. unfold new_description.
  rewrite !lookup_insert_ne by congruence. reflexivity.
Qed.

Lemma new_description_dom d w c a :
  dom (new_description value d w c a)
  = {[value CONTENT_KEY_WRAPPING_ALGORITHM]}
      ∪ ({[value CONTENT_ENCRYPTION_ALGORITHM]}
           ∪ ({[value WRAPPED_DATA_KEY]} ∪ dom d)).
Proof. unfold new_description. rewrite !dom_insert_L. reflexivity. Qed.

End DescriptionFacts.

Lemma split1_first_slash fam seg :
  ~ In "/"%char (list_ascii_of_string fam) ->
  Str.split1 "/" (fam ++ String "/" seg) = [fam; seg].
Proof.
  induction fam as [|c fam IH]; intros Hno.
  - reflexivity.
  - change (String c fam +:+ String "/" seg)
      with (String c (fam +:+ String "/" seg)).
    cbn [Str.split1 list_ascii_of_string] in *.
    destruct (Ascii.eqb_spec c "/") as [->|_]; [cbn in Hno; tauto|].
    rewrite IH; [reflexivity|]. cbn in Hno. tauto.
Qed.

Section Claims.

Variable value : MaterialDescriptionKeys -> string.
Variable generate : string -> option Z -> nat -> result DelegatedKey.

Abbreviation init := (__init__ value generate).

(** What a successful construction on the generation path has done. *)
Lemma generation_success sk wk uk md s d m s' :
  described s md d ->
  d !! value WRAPPED_DATA_KEY = None ->
  init sk wk uk md s = (Ok m, s') ->
  exists w spec len wrapped,
    wk = Some w
    /\ content_key_algorithm_of value d = PyStr spec
    /\ key_length spec = Ok len
    /\ generate (family spec) len (entropy s) = Ok (_content_key m)
    /\ wrap w (generation_transform value d w) (key (_content_key m)) None = Ok wrapped
    /\ heap s' !! _material_description m
       = Some (new_description value d wrapped (PyStr spec)
                 (generation_transform value d w))
    /\ heap s !! _material_description m = None
    /\ (forall l, is_Some (heap s !! l) -> heap s' !! l = heap s !! l)
    /\ calls s' = calls s ++
         [CallGenerate (family spec) len;
          CallWrap (generation_transform value d w) (key (_content_key m)) None]
    /\ entropy s' = S (entropy s)
    /\ _signing_key m = sk /\ _wrapping_key m = wk /\ _unwrapping_key m = uk
    /\ _content_key_algorithm m = PyStr spec.
Proof.
  intros Hd Hw H.
  destruct (init_post_init value generate md s d Hd)
    as (l1 & s1 & Heq & Hl1 & Hf & Hfr & Hc & He).
  rewrite Heq, (post_init_generation value generate _ _ _ _ _ _ Hl1 Hw) in H.
  destruct wk as [w|]; [|discriminate].
  destruct (content_key_algorithm_of value d) as [spec|] eqn:Hcka; [|discriminate].
  destruct (key_length spec) as [len|] eqn:Hlen; [|discriminate].
  cbv zeta in H.
  destruct (generate _ _ _) as [ck|] eqn:Hg; [|discriminate].
  destruct (wrap _ _ _ _) as [wrapped|] eqn:Hwr; [|discriminate].
  injection H as <- <-. cbn.
  assert (Hf1 : heap s1 !! fresh (dom (heap s1)) = None)
    by apply not_elem_of_dom, is_fresh.
  exists w, spec, len, wrapped.
  rewrite He in Hg. rewrite Hc, He.
  split_and!; try done.
  - apply lookup_insert_eq.
  - destruct (heap s !! fresh (dom (heap s1))) eqn:Hs; [|reflexivity].
    rewrite <- Hfr in Hs by eauto. congruence.
  - intros l Hl. rewrite lookup_insert_ne; [auto|].
    intros <-. rewrite <- Hfr in Hl by assumption.
    rewrite Hf1 in Hl. destruct Hl. discriminate.
Qed.


(** What a successful construction on the recovery path has done. *)
Lemma recovery_success sk wk uk md s d enc m s' :
  described s md d ->
  d !! value WRAPPED_DATA_KEY = Some enc ->
  init sk wk uk md s = (Ok m, s') ->
  exists u spec wrapped,
    uk = Some u
    /\ content_key_algorithm_of value d = PyStr spec
    /\ b64decode enc = Ok wrapped
    /\ unwrap u (recovery_transform value d u) wrapped (family spec) SYMMETRIC None
       = Ok (_content_key m)
    /\ heap s' !! _material_description m = Some d
    /\ heap s !! _material_description m = None
    /\ calls s' = calls s ++
         [CallUnwrap (recovery_transform value d u) wrapped (family spec)
            SYMMETRIC None]
    /\ entropy s' = entropy s
    /\ _signing_key m = sk.
Proof.
  intros Hd Hw H.
  destruct (init_post_init value generate md s d Hd)
    as (l1 & s1 & Heq & Hl1 & Hf & Hfr & Hc & He).
  rewrite Heq, (post_init_recovery value generate _ _ _ _ _ _ _ Hl1 Hw) in H.
  destruct uk as [u|]; [|discriminate].
  destruct (b64decode enc) as [wrapped|] eqn:Hdec; [|discriminate].
  destruct (content_key_algorithm_of value d) as [spec|] eqn:Hcka; [|discriminate].
  cbv zeta in H.
  destruct (unwrap _ _ _ _ _ _) as [k|] eqn:Hu; [|discriminate].
  injection H as <- <-. cbn.
  exists u, spec, wrapped. rewrite Hc, He. split_and!; done.
Qed.

(** No construction, whatever its outcome, changes a dictionary that was
    there before. *)
Lemma init_frame sk wk uk md s d r s' :
  described s md d ->
  init sk wk uk md s = (r, s') ->
  forall l, is_Some (heap s !! l) -> heap s' !! l = heap s !! l.
Proof.
  intros Hd H.
  destruct (init_post_init value generate md s d Hd)
    as (l1 & s1 & Heq & Hl1 & Hf & Hfr & Hc & He).
  rewrite Heq in H.
  destruct (d !! value WRAPPED_DATA_KEY) as [enc|] eqn:Hw.
  - rewrite (post_init_recovery value generate _ _ _ _ _ _ _ Hl1 Hw) in H.
    repeat first [progress cbv zeta in H | case_match]; simplify_eq; cbn; exact Hfr.
  - rewrite (post_init_generation value generate _ _ _ _ _ _ Hl1 Hw) in H.
    repeat first [progress cbv zeta in H | case_match]; simplify_eq; cbn;
      try exact Hfr.
    intros l Hl. rewrite lookup_insert_ne; [auto|].
    intros <-. rewrite <- Hfr in Hl by assumption.
    assert (Hf1 : heap s1 !! fresh (dom (heap s1)) = None)
      by apply not_elem_of_dom, is_fresh.
    rewrite Hf1 in Hl. destruct Hl. discriminate.
Qed.


(** C1. Round trip: when a construction on the generation path (no
    wrapped-content-key entry in the description) succeeds with materials
    M1, it has generated M1's encryption key, wrapped its raw bytes with the
    wrapping key and stored the base64 text of the result in M1's
    description; and a construction from M1's material description, with an
    unwrapping key that matches M1's wrapping key for the transform and the
    key family used, takes the recovery path: it calls [unwrap] once, on the
    bytes [wrap] returned, and succeeds with materials M2 whose decryption
    key is what [unwrap] returned and holds the same raw key bytes as M1's
    encryption key. *)
Theorem round_trip sk wk uk0 md s d spec m1 s1 sk' wk' uk :
  distinct_keys value ->
  described s md d ->
  d !! value WRAPPED_DATA_KEY = None ->
  content_key_algorithm_of value d = PyStr spec ->
  init sk (Some wk) uk0 md s = (Ok m1, s1) ->
  matching wk uk (generation_transform value d wk) (family spec) ->
  exists len wrapped d1 m2 s2,
    new_calls s s1
    = [CallGenerate (family spec) len;
       CallWrap (generation_transform value d wk) (key (encryption_key m1)) None]
    /\ wrap wk (generation_transform value d wk) (key (encryption_key m1)) None
       = Ok wrapped
    /\ heap s1 !! material_description m1 = Some d1
    /\ d1 !! value WRAPPED_DATA_KEY = Some (PyBytes (Base64.b64encode wrapped))
    /\ init sk' wk' (Some uk) (Some (material_description m1)) s1 = (Ok m2, s2)
    /\ new_calls s1 s2
       = [CallUnwrap (generation_transform value d wk) wrapped (family spec)
            SYMMETRIC None]
    /\ unwrap uk (generation_transform value d wk) wrapped (family spec)
         SYMMETRIC None
       = Ok (decryption_key m2)
    /\ key (decryption_key m2) = key (encryption_key m1).
Proof.
  intros Hk Hd Hw Hspec H1 Hm.
  destruct (generation_success _ _ _ _ _ _ _ _ Hd Hw H1)
    as (w & spec' & len & wrapped & [= <-] & Hcka & _ & _ & Hwr & Hnew & _ & _
        & Hc & _).
  rewrite Hspec in Hcka. injection Hcka as <-.
  set (alg := generation_transform value d wk) in *.
  destruct (init_post_init value generate (Some (material_description m1)) s1 _ Hnew)
    as (l2 & s2 & Heq & Hl2 & _ & _ & Hc2 & _).
  destruct (Hm (key (_content_key m1)) wrapped Hwr) as (k & Hu & Hkey).
  pose proof (new_description_wrapped_key value d wrapped (PyStr spec) alg Hk)
    as Hentry.
  exists len, wrapped, (new_description value d wrapped (PyStr spec) alg).
  rewrite Heq, (post_init_recovery value generate _ _ _ _ _ _ _ Hl2 Hentry).
  rewrite b64decode_b64encode.
  unfold content_key_algorithm_of, recovery_transform.
  rewrite (new_description_content_algorithm value d wrapped (PyStr spec) alg Hk).
  rewrite (new_description_wrapping_algorithm value d wrapped (PyStr spec) alg).
  cbv zeta. rewrite Hu. eexists _, _. split_and!.
  - unfold new_calls. rewrite Hc, drop_app_length. reflexivity.
  - exact Hwr.
  - exact Hnew.
  - exact Hentry.
  - reflexivity.
  - unfold new_calls. cbn. rewrite Hc2, drop_app_length. reflexivity.
  - reflexivity.
  - exact Hkey.
Qed.

(** C3. Missing keys fail fast: without a wrapping key the generation path
    raises [WrappingError], without an unwrapping key the recovery path
    raises [UnwrappingError], and in both cases no call on a delegated-key
    capability has been made and no key has been generated. *)
Theorem missing_key_fails_fast sk md s d :
  described s md d ->
  (d !! value WRAPPED_DATA_KEY = None ->
   forall uk, exists s',
     init sk None uk md s
     = (Raise (WrappingError
                 "Cryptographic materials cannot be generated: no wrapping key"), s')
     /\ calls s' = calls s /\ entropy s' = entropy s)
  /\ (is_Some (d !! value WRAPPED_DATA_KEY) ->
      forall wk, exists s',
        init sk wk None md s
        = (Raise (UnwrappingError
                    "Cryptographic materials cannot be loaded from material description: no unwrapping key"), s')
        /\ calls s' = calls s /\ entropy s' = entropy s).
Proof.
  intros Hd.
  destruct (init_post_init value generate md s d Hd)
    as (l1 & s1 & Heq & Hl1 & _ & _ & Hc & He).
  split.
  - intros Hw uk. exists s1. rewrite Heq.
    rewrite (post_init_generation value generate _ _ _ _ _ _ Hl1 Hw). done.
  - intros [enc Hw] wk. exists s1. rewrite Heq.
    rewrite (post_init_recovery value generate _ _ _ _ _ _ _ Hl1 Hw). done.
Qed.

(** C5. The description a successful generation-path construction ends
    with is the caller's description with three entries written over it:
    the base64 encoding of the wrapped key bytes, the resolved content
    encryption algorithm spec, and the resolved wrapping transform; every
    other key keeps its value, and no other key appears. *)
Theorem generation_description sk wk uk md s d m s' :
  distinct_keys value ->
  described s md d ->
  d !! value WRAPPED_DATA_KEY = None ->
  init sk wk uk md s = (Ok m, s') ->
  exists w wrapped d',
    wk = Some w
    /\ wrap w (generation_transform value d w) (key (encryption_key m)) None
       = Ok wrapped
    /\ heap s' !! material_description m = Some d'
    /\ d' !! value WRAPPED_DATA_KEY = Some (PyBytes (Base64.b64encode wrapped))
    /\ d' !! value CONTENT_ENCRYPTION_ALGORITHM = Some (content_key_algorithm_of value d)
    /\ d' !! value CONTENT_KEY_WRAPPING_ALGORITHM = Some (generation_transform value d w)
    /\ (forall k,
          k <> value WRAPPED_DATA_KEY ->
          k <> value CONTENT_ENCRYPTION_ALGORITHM ->
          k <> value CONTENT_KEY_WRAPPING_ALGORITHM ->
          d' !! k = d !! k)
    /\ dom d' = dom d ∪ {[value WRAPPED_DATA_KEY;
                          value CONTENT_ENCRYPTION_ALGORITHM;
                          value CONTENT_KEY_WRAPPING_ALGORITHM]}.
Proof.
  intros Hk Hd Hw H.
  destruct (generation_success _ _ _ _ _ _ _ _ Hd Hw H)
    as (w & spec & len & wrapped & -> & Hcka & _ & _ & Hwr & Hnew & _).
  exists w, wrapped, (new_description value d wrapped (PyStr spec)
                        (generation_transform value d w)).
  rewrite Hcka. split_and!; try done.
  - by apply new_description_wrapped_key.
  - by apply new_description_content_algorithm.
  - apply new_description_wrapping_algorithm.
  - intros k. apply new_description_other.
  - rewrite new_description_dom. apply set_eq. intros x.
    rewrite !elem_of_union, !elem_of_singleton. tauto.
Qed.


Lemma recovery_ignores_wrapping_key sk wk wk' uk md s d r s' :
  described s md d ->
  is_Some (d !! value WRAPPED_DATA_KEY) ->
  init sk wk uk md s = (r, s') ->
  exists r', init sk wk' uk md s = (r', s') /\ same_outcome r r'.
Proof.
  intros Hd [enc Hw].
  destruct (init_post_init value generate md s d Hd) as (l1 & s1 & Heq & Hl1 & _).
  rewrite !Heq, !(post_init_recovery value generate _ _ _ _ _ _ _ Hl1 Hw).
  repeat first [progress cbv zeta | case_match]; intros [= <- <-];
    eexists; (split; [reflexivity|]); cbn; done.
Qed.

Lemma generation_ignores_unwrapping_key sk wk uk uk' md s d r s' :
  described s md d ->
  d !! value WRAPPED_DATA_KEY = None ->
  init sk wk uk md s = (r, s') ->
  exists r', init sk wk uk' md s = (r', s') /\ same_outcome r r'.
Proof.
  intros Hd Hw.
  destruct (init_post_init value generate md s d Hd) as (l1 & s1 & Heq & Hl1 & _).
  rewrite !Heq, !(post_init_generation value generate _ _ _ _ _ _ Hl1 Hw).
  repeat first [progress cbv zeta | case_match]; intros [= <- <-];
    eexists; (split; [reflexivity|]); cbn; done.
Qed.

Lemma recovery_calls sk wk uk md s d r s' :
  described s md d ->
  is_Some (d !! value WRAPPED_DATA_KEY) ->
  init sk wk uk md s = (r, s') ->
  exists cs,
    calls s' = calls s ++ cs /\ forallb is_unwrap cs = true
    /\ (forall m, r = Ok m -> exists c, cs = [c]).
Proof.
  intros Hd [enc Hw].
  destruct (init_post_init value generate md s d Hd)
    as (l1 & s1 & Heq & Hl1 & _ & _ & Hc & _).
  rewrite !Heq, !(post_init_recovery value generate _ _ _ _ _ _ _ Hl1 Hw).
  repeat first [progress cbv zeta | case_match]; intros [= <- <-]; cbn;
    rewrite Hc.
  all: try (exists []; rewrite app_nil_r; split_and!; done).
  all: eexists [_]; split_and!; [reflexivity|reflexivity|]; intros; eauto.
Qed.

Lemma generation_calls sk wk uk md s d r s' :
  described s md d ->
  d !! value WRAPPED_DATA_KEY = None ->
  init sk wk uk md s = (r, s') ->
  exists cs,
    calls s' = calls s ++ cs
    /\ forallb (fun c => negb (is_unwrap c)) cs = true
    /\ (forall m, r = Ok m ->
          exists alg len a c aad, cs = [CallGenerate alg len; CallWrap a c aad]).
Proof.
  intros Hd Hw.
  destruct (init_post_init value generate md s d Hd)
    as (l1 & s1 & Heq & Hl1 & _ & _ & Hc & _).
  rewrite !Heq, !(post_init_generation value generate _ _ _ _ _ _ Hl1 Hw).
  repeat first [progress cbv zeta | case_match]; intros [= <- <-]; cbn;
    rewrite Hc.
  all: try (exists []; rewrite app_nil_r; split_and!; done).
  all: try (eexists [_]; split_and!; [reflexivity|reflexivity|]; done).
  all: eexists [_; _]; split_and!; [reflexivity|reflexivity|]; intros; eauto 10.
Qed.

Lemma recovery_attempt sk wk u md s d enc w spec r s' :
  described s md d ->
  d !! value WRAPPED_DATA_KEY = Some enc ->
  b64decode enc = Ok w ->
  content_key_algorithm_of value d = PyStr spec ->
  init sk wk (Some u) md s = (r, s') ->
  calls s' = calls s ++
    [CallUnwrap (recovery_transform value d u) w (family spec) SYMMETRIC None]
  /\ match unwrap u (recovery_transform value d u) w (family spec)
             SYMMETRIC None with
     | Ok k => exists m, r = Ok m /\ decryption_key m = k
     | Raise e => r = Raise e
     end.
Proof.
  intros Hd Hw Hdec Hspec.
  destruct (init_post_init value generate md s d Hd)
    as (l1 & s1 & Heq & Hl1 & _ & _ & Hc & _).
  rewrite Heq, (post_init_recovery value generate _ _ _ _ _ _ _ Hl1 Hw).
  rewrite Hdec, Hspec. cbv zeta.
  destruct (unwrap u _ _ _ _ _); intros [= <- <-]; cbn; rewrite Hc; eauto.
Qed.

Lemma generation_attempt sk w uk md s d spec len r s' :
  described s md d ->
  d !! value WRAPPED_DATA_KEY = None ->
  content_key_algorithm_of value d = PyStr spec ->
  key_length spec = Ok len ->
  init sk (Some w) uk md s = (r, s') ->
  match generate (family spec) len (entropy s) with
  | Raise e =>
      r = Raise e /\ calls s' = calls s ++ [CallGenerate (family spec) len]
  | Ok ck =>
      calls s' = calls s ++
        [CallGenerate (family spec) len;
         CallWrap (generation_transform value d w) (key ck) None]
      /\ match wrap w (generation_transform value d w) (key ck) None with
         | Ok wrapped =>
             exists m,
               r = Ok m /\ encryption_key m = ck
               /\ heap s' !! material_description m
                  = Some (new_description value d wrapped (PyStr spec)
                            (generation_transform value d w))
         | Raise e => r = Raise e
         end
  end.
Proof.
  intros Hd Hw Hspec Hlen.
  destruct (init_post_init value generate md s d Hd)
    as (l1 & s1 & Heq & Hl1 & _ & _ & Hc & He).
  rewrite Heq, (post_init_generation value generate _ _ _ _ _ _ Hl1 Hw).
  rewrite Hspec, Hlen. cbv zeta. rewrite He.
  destruct (generate _ _ _) as [ck|e]; [|intros [= <- <-]; cbn; by rewrite Hc].
  destruct (wrap w _ _ _) as [wrapped|e]; intros [= <- <-]; cbn; rewrite Hc;
    (split; [reflexivity|]); [|reflexivity].
  eexists. split_and!; try reflexivity. cbn. apply lookup_insert_eq.
Qed.

(** C2. Path selection: the presence of the wrapped-content-key entry in
    the description selects the path, whatever keys were supplied.  With
    the entry the recovery path is taken: only [unwrap] is ever called, the
    wrapping key has no influence on the outcome, a missing unwrapping key
    gives [UnwrappingError], and with an unwrapping key, once the entry
    decodes, [unwrap] is called and its result, key or error, is the result
    of the construction.  Without the entry the generation path is taken:
    [unwrap] is never called, the unwrapping key has no influence on the
    outcome, a missing wrapping key gives [WrappingError], and with a
    wrapping key, once the key length is read, the generator is called,
    then [wrap] on the generated key, and the construction succeeds with
    that key when both do and fails with their error otherwise. *)
Theorem path_selection sk wk uk md s d r s' :
  described s md d ->
  init sk wk uk md s = (r, s') ->
  exists cs,
    calls s' = calls s ++ cs
    /\ match d !! value WRAPPED_DATA_KEY with
       | Some enc =>
           forallb is_unwrap cs = true
           /\ (forall m, r = Ok m -> exists c, cs = [c])
           /\ (forall wk', exists r',
                 init sk wk' uk md s = (r', s') /\ same_outcome r r')
           /\ (uk = None -> exists msg, r = Raise (UnwrappingError msg))
           /\ (forall u w spec,
                 uk = Some u ->
                 b64decode enc = Ok w ->
                 content_key_algorithm_of value d = PyStr spec ->
                 cs = [CallUnwrap (recovery_transform value d u) w (family spec)
                         SYMMETRIC None]
                 /\ match unwrap u (recovery_transform value d u) w (family spec)
                            SYMMETRIC None with
                    | Ok k => exists m, r = Ok m /\ decryption_key m = k
                    | Raise e => r = Raise e
                    end)
       | None =>
           forallb (fun c => negb (is_unwrap c)) cs = true
           /\ (forall m, r = Ok m ->
                 exists alg len a c aad, cs = [CallGenerate alg len; CallWrap a c aad])
           /\ (forall uk', exists r',
                 init sk wk uk' md s = (r', s') /\ same_outcome r r')
           /\ (wk = None -> exists msg, r = Raise (WrappingError msg))
           /\ (forall w spec len,
                 wk = Some w ->
                 content_key_algorithm_of value d = PyStr spec ->
                 key_length spec = Ok len ->
                 match generate (family spec) len (entropy s) with
                 | Raise e => r = Raise e /\ cs = [CallGenerate (family spec) len]
                 | Ok ck =>
                     cs = [CallGenerate (family spec) len;
                           CallWrap (generation_transform value d w) (key ck) None]
                     /\ match wrap w (generation_transform value d w) (key ck)
                                None with
                        | Ok _ => exists m, r = Ok m /\ encryption_key m = ck
                        | Raise e => r = Raise e
                        end
                 end)
       end.
Proof.
  intros Hd H.
  destruct (init_post_init value generate md s d Hd)
    as (l1 & s1 & Heq & Hl1 & _).
  destruct (d !! value WRAPPED_DATA_KEY) as [enc|] eqn:Hw.
  - destruct (recovery_calls _ _ _ _ _ _ _ _ Hd (mk_is_Some _ _ Hw) H)
      as (cs & Hcs & Hall & Hone).
    exists cs. split_and!; try done.
    + intros wk'. eapply recovery_ignores_wrapping_key; eauto.
    + intros ->.
      rewrite Heq, (post_init_recovery value generate _ _ _ _ _ _ _ Hl1 Hw) in H.
      injection H as <- _. eauto.
    + intros u w spec -> Hdec Hspec.
      destruct (recovery_attempt _ _ _ _ _ _ _ _ _ _ _ Hd Hw Hdec Hspec H)
        as [Hc Hres].
      split; [|exact Hres]. rewrite Hcs in Hc. by apply app_inv_head in Hc.
  - destruct (generation_calls _ _ _ _ _ _ _ _ Hd Hw H) as (cs & Hcs & Hall & Htwo).
    exists cs. split_and!; try done.
    + intros uk'. eapply generation_ignores_unwrapping_key; eauto.
    + intros ->.
      rewrite Heq, (post_init_generation value generate _ _ _ _ _ _ Hl1 Hw) in H.
      injection H as <- _. eauto.
    + intros w spec len -> Hspec Hlen.
      pose proof (generation_attempt _ _ _ _ _ _ _ _ _ _ Hd Hw Hspec Hlen H) as Ha.
      destruct (generate (family spec) len (entropy s)) as [ck|e].
      * destruct Ha as [Hc Hres]. rewrite Hcs in Hc. apply app_inv_head in Hc.
        split; [exact Hc|].
        destruct (wrap w _ _ _); [|exact Hres].
        destruct Hres as (m & -> & <- & _). eauto.
      * destruct Ha as [-> Hc]. rewrite Hcs in Hc. apply app_inv_head in Hc. done.
Qed.

(** C4. Description immutability: a construction leaves the dictionary the
    caller passed as it was; the description of the instance is a
    dictionary that did not exist before; and whatever the caller then does
    to the dictionary it passed, the five accessors of the instance show
    what they showed. *)
Theorem description_immutability sk wk uk l s d r s' :
  heap s !! l = Some d ->
  init sk wk uk (Some l) s = (r, s') ->
  heap s' !! l = Some d
  /\ forall m, r = Ok m ->
       material_description m <> l
       /\ heap s !! material_description m = None
       /\ forall h : gmap loc dict,
            (forall l', l' <> l -> h !! l' = heap s' !! l') ->
            observe m (mkState h (calls s') (entropy s')) = observe m s'.
Proof.
  intros Hl H. split.
  - rewrite (init_frame sk wk uk (Some l) s d r s' Hl H l) by eauto. exact Hl.
  - intros m ->.
    assert (Hfresh : heap s !! material_description m = None).
    { destruct (d !! value WRAPPED_DATA_KEY) as [enc|] eqn:Hw.
      - destruct (recovery_success sk wk uk (Some l) s d enc m s' Hl Hw H)
          as (? & ? & ? & _ & _ & _ & _ & _ & Hf & _). exact Hf.
      - destruct (generation_success sk wk uk (Some l) s d m s' Hl Hw H)
          as (? & ? & ? & ? & _ & _ & _ & _ & _ & _ & Hf & _). exact Hf. }
    assert (Hne : material_description m <> l) by congruence.
    split_and!; try done.
    intros h Hh. unfold observe. cbn. rewrite (Hh _ Hne). reflexivity.
Qed.


(** C6 (what the code does). On every successful generation-path
    construction the wrapped-content-key entry of the new description is a
    [bytes] object, the result of [base64.b64encode], not a [str]. *)
Theorem wrapped_key_entry_is_bytes sk wk uk md s d m s' :
  distinct_keys value ->
  described s md d ->
  d !! value WRAPPED_DATA_KEY = None ->
  init sk wk uk md s = (Ok m, s') ->
  exists d' b,
    heap s' !! material_description m = Some d'
    /\ d' !! value WRAPPED_DATA_KEY = Some (PyBytes b)
    /\ is_str (PyBytes b) = false.
Proof.
  intros Hk Hd Hw H.
  destruct (generation_success _ _ _ _ _ _ _ _ Hd Hw H)
    as (w & spec & len & wrapped & _ & _ & _ & _ & _ & Hnew & _).
  eexists _, (Base64.b64encode wrapped). split; [exact Hnew|].
  split; [by apply new_description_wrapped_key|reflexivity].
Qed.

(** C7. Wrapping-transform resolution on the generation path: the
    transform is the content-key-wrapping-algorithm entry of the
    description when there is one, and otherwise the wrapping key's
    algorithm identifier mapped through the table (AES to AESWrap, RSA to
    RSA/ECB/OAEPWithSHA-256AndMGF1Padding, anything else to itself).  It is
    used: whenever the key length is read and the generator returns a key,
    the construction calls [wrap] with this transform on that key, and it
    succeeds, recording the transform in the new description, exactly when
    [wrap] returns, and fails with the error of [wrap] otherwise.  No
    [wrap] call of any construction is made with another transform. *)
Theorem wrapping_transform_resolution sk w uk md s d r s' :
  described s md d ->
  d !! value WRAPPED_DATA_KEY = None ->
  init sk (Some w) uk md s = (r, s') ->
  let t :=
    match d !! value CONTENT_KEY_WRAPPING_ALGORITHM with
    | Some v => v
    | None => PyStr (_wrapping_transformation (algorithm w))
    end in
  _wrapping_transformation "AES" = "AESWrap"
  /\ _wrapping_transformation "RSA" = "RSA/ECB/OAEPWithSHA-256AndMGF1Padding"
  /\ (forall a, a <> "AES" -> a <> "RSA" -> _wrapping_transformation a = a)
  /\ (forall spec len ck,
        content_key_algorithm_of value d = PyStr spec ->
        key_length spec = Ok len ->
        generate (family spec) len (entropy s) = Ok ck ->
        new_calls s s' = [CallGenerate (family spec) len; CallWrap t (key ck) None]
        /\ match wrap w t (key ck) None with
           | Ok _ =>
               exists m d',
                 r = Ok m
                 /\ heap s' !! material_description m = Some d'
                 /\ d' !! value CONTENT_KEY_WRAPPING_ALGORITHM = Some t
           | Raise e => r = Raise e
           end)
  /\ (forall alg c aad,
        In (CallWrap alg c aad) (drop (length (calls s)) (calls s')) -> alg = t)
  /\ (forall m, r = Ok m ->
        In (CallWrap t (key (encryption_key m)) None)
          (drop (length (calls s)) (calls s'))
        /\ exists d',
             heap s' !! material_description m = Some d'
             /\ d' !! value CONTENT_KEY_WRAPPING_ALGORITHM = Some t).
Proof.
  intros Hd Hw H t.
  split; [reflexivity|]. split; [reflexivity|].
  split.
  { intros a Ha Hr. unfold _wrapping_transformation, _WRAPPING_TRANSFORMATION.
    rewrite !lookup_insert_ne by congruence. reflexivity. }
  split.
  { intros spec len ck Hspec Hlen Hg.
    pose proof (generation_attempt _ _ _ _ _ _ _ _ _ _ Hd Hw Hspec Hlen H) as Ha.
    rewrite Hg in Ha. change (generation_transform value d w) with t in Ha.
    destruct Ha as [Hc Hres].
    split; [unfold new_calls; by rewrite Hc, drop_app_length|].
    destruct (wrap w t (key ck) None) as [wrapped|e]; [|exact Hres].
    destruct Hres as (m & -> & _ & Hm).
    eexists m, _. split; [reflexivity|]. split; [exact Hm|].
    apply new_description_wrapping_algorithm. }
  destruct (init_post_init value generate md s d Hd)
    as (l1 & s1 & Heq & Hl1 & _ & _ & Hc & _).
  rewrite Heq, (post_init_generation value generate _ _ _ _ _ _ Hl1 Hw) in H.
  fold t in H. change (generation_transform value d w) with t in H.
  repeat first [progress cbv zeta in H | case_match]; simplify_eq; cbn;
    rewrite Hc, ?drop_app_length, ?drop_all.
  all: split; [intros alg c aad Hin; cbn in Hin; intuition congruence|].
  all: intros m [= <-]. cbn.
  split; [auto|]. eexists. split; [apply lookup_insert_eq|].
  apply new_description_wrapping_algorithm.
Qed.

(** C8. Defaults and key length: with an empty description the algorithm
    spec is AES/256 and the key generator is asked for family AES and 32
    bytes (256 divided by 8); with the spec AES, which has no length
    segment, the generator is asked for family AES and no length, and the
    construction succeeds whenever the generator and the wrapping key
    do. *)
Theorem defaults_and_key_length sk w uk md s r s' md2 s2 d2 :
  described s md ∅ ->
  init sk (Some w) uk md s = (r, s') ->
  described s2 md2 d2 ->
  d2 !! value WRAPPED_DATA_KEY = None ->
  d2 !! value CONTENT_ENCRYPTION_ALGORITHM = Some (PyStr "AES") ->
  (256 / 8 = 32)%Z
  /\ (exists cs, calls s' = calls s ++ CallGenerate "AES" (Some 32%Z) :: cs)
  /\ (forall m, r = Ok m ->
        _content_key_algorithm m = PyStr "AES/256"
        /\ generate "AES" (Some 32%Z) (entropy s) = Ok (encryption_key m))
  /\ (forall ck wrapped,
        generate "AES" None (entropy s2) = Ok ck ->
        wrap w (generation_transform value d2 w) (key ck) None = Ok wrapped ->
        exists m s2',
          init sk (Some w) uk md2 s2 = (Ok m, s2')
          /\ encryption_key m = ck
          /\ calls s2' = calls s2 ++
               [CallGenerate "AES" None;
                CallWrap (generation_transform value d2 w) (key ck) None]).
Proof.
  intros Hd H Hd2 Hw2 Hspec. split; [reflexivity|].
  assert (Hdefault : content_key_algorithm_of value ∅ = PyStr "AES/256").
  { unfold content_key_algorithm_of. rewrite lookup_empty. reflexivity. }
  assert (Hlen : key_length "AES/256" = Ok (Some 32%Z)) by reflexivity.
  assert (Hfam : family "AES/256" = "AES") by reflexivity.
  destruct (init_post_init value generate md s ∅ Hd)
    as (l1 & s1 & Heq & Hl1 & _ & _ & Hc & He).
  rewrite Heq in H.
  rewrite (post_init_generation value generate _ _ _ _ _ _ Hl1 (lookup_empty _)) in H.
  rewrite Hdefault, Hlen, Hfam in H. cbv zeta in H. unfold with_calls in H.
  cbn in H. rewrite ?Hc, ?He in H.
  split; [|split].
  - repeat case_match; simplify_eq; cbn; eauto.
  - intros m ->. repeat case_match; simplify_eq; cbn. done.
  - intros ck wrapped Hg Hwr.
    destruct (init_post_init value generate md2 s2 d2 Hd2)
      as (l2 & s2' & Heq2 & Hl2 & _ & _ & Hc2 & He2).
    rewrite Heq2, (post_init_generation value generate _ _ _ _ _ _ Hl2 Hw2).
    unfold content_key_algorithm_of. rewrite Hspec.
    change (key_length "AES") with (@Ok (option Z) None).
    change (family "AES") with "AES". cbv zeta.
    rewrite He2, Hg, Hwr. eexists _, _. split; [reflexivity|].
    cbn. rewrite Hc2. done.
Qed.

(** C10. A malformed key-length segment: on the generation path, with a
    wrapping key, when the algorithm spec has a slash and what follows
    the first slash is not accepted by int(), the construction raises
    [ValueError], which is neither [WrappingError] nor [UnwrappingError],
    and it does so before any call on a delegated-key capability. *)
Theorem malformed_key_length sk w uk md s d fam seg :
  described s md d ->
  d !! value WRAPPED_DATA_KEY = None ->
  d !! value CONTENT_ENCRYPTION_ALGORITHM = Some (PyStr (fam ++ String "/" seg)) ->
  ~ In "/"%char (list_ascii_of_string fam) ->
  Str.int seg = None ->
  exists msg s',
    init sk (Some w) uk md s = (Raise (ValueError msg), s')
    /\ calls s' = calls s /\ entropy s' = entropy s
    /\ (forall m, ValueError msg <> WrappingError m)
    /\ (forall m, ValueError msg <> UnwrappingError m).
Proof.
  intros Hd Hw Hspec Hfam Hint.
  destruct (init_post_init value generate md s d Hd)
    as (l1 & s1 & Heq & Hl1 & _ & _ & Hc & He).
  rewrite Heq, (post_init_generation value generate _ _ _ _ _ _ Hl1 Hw).
  unfold content_key_algorithm_of, key_length.
  rewrite Hspec, (split1_first_slash _ _ Hfam). cbn. rewrite Hint.
  eexists _, _. split_and!; done.
Qed.

End Claims.

(** C9. The default provider: both materials methods of the base class raise
    [AttributeError] (the code's error for a provider that supplies no
    materials), whatever the encryption context, and leave the state as it
    was; that error is neither of the two errors of material resolution,
    [WrappingError] and [UnwrappingError]; and [refresh] returns normally
    and changes nothing. *)
Theorem unsupported_default_provider
    (EncryptionContext DecryptionMaterials EncryptionMaterials : Type)
    (ctx : EncryptionContext) (s : state) :
  CryptographicMaterialsProvider.decryption_materials
    EncryptionContext DecryptionMaterials ctx s
  = (Raise (AttributeError "No decryption materials available"), s)
  /\ CryptographicMaterialsProvider.encryption_materials
       EncryptionContext EncryptionMaterials ctx s
     = (Raise (AttributeError "No encryption materials available"), s)
  /\ (forall msg msg',
        AttributeError msg <> WrappingError msg'
        /\ AttributeError msg <> UnwrappingError msg')
  /\ CryptographicMaterialsProvider.refresh s = (Ok tt, s).
Proof. split_and!; try reflexivity. intros msg msg'. split; discriminate. Qed.


(** ** Further properties of the construction *)

Lemma split1_no_sep sep s :
  ~ In sep (list_ascii_of_string s) -> Str.split1 sep s = [s].
Proof.
  induction s as [|c s IH]; intros Hno; [reflexivity|].
  cbn [Str.split1 list_ascii_of_string] in *.
  destruct (Ascii.eqb_spec c sep) as [->|_]; [cbn in Hno; tauto|].
  rewrite IH; [reflexivity|]. cbn in Hno. tauto.
Qed.

Section Extras.

Variable value : MaterialDescriptionKeys -> string.
Variable generate : string -> option Z -> nat -> result DelegatedKey.

Abbreviation init := (__init__ value generate).

Ltac crunch H :=
  repeat first [progress cbv zeta in H | case_match]; simplify_eq.

(** X1. The arguments of [unwrap] on the recovery path: whenever a
    construction from a description with a wrapped-key entry calls [unwrap],
    the transform is the description's wrapping-algorithm entry or else the
    unwrapping key's own algorithm name, not translated through the table;
    the wrapped key is the base64 decoding of the entry; the expected
    algorithm is the text of the algorithm spec before its first slash; the
    key type is symmetric and there is no associated data. *)
Theorem recovery_unwrap_arguments sk wk u md s d enc r s' alg w fam ty aad :
  described s md d ->
  d !! value WRAPPED_DATA_KEY = Some enc ->
  init sk wk (Some u) md s = (r, s') ->
  In (CallUnwrap alg w fam ty aad) (new_calls s s') ->
  alg = match d !! value CONTENT_KEY_WRAPPING_ALGORITHM with
        | Some v => v
        | None => PyStr (algorithm u)
        end
  /\ b64decode enc = Ok w
  /\ (exists spec rest,
        match d !! value CONTENT_ENCRYPTION_ALGORITHM with
        | Some v => v
        | None => PyStr "AES/256"
        end = PyStr spec
        /\ Str.split1 "/" spec = fam :: rest)
  /\ ty = SYMMETRIC /\ aad = None.
Proof.
  intros Hd Hw H.
  destruct (init_post_init value generate md s d Hd)
    as (l1 & s1 & Heq & Hl1 & _ & _ & Hc & _).
  rewrite Heq, (post_init_recovery value generate _ _ _ _ _ _ _ Hl1 Hw) in H.
  unfold new_calls.
  destruct (b64decode enc) as [wrapped|e] eqn:Hdec.
  2:{ injection H as <- <-. rewrite Hc, drop_all. intros []. }
  unfold content_key_algorithm_of, _DEFAULT_CONTENT_ENCRYPTION_ALGORITHM in H.
  destruct (match d !! value CONTENT_ENCRYPTION_ALGORITHM with
            | Some v => v | None => PyStr "AES/256" end) as [spec|b] eqn:Hspec.
  2:{ injection H as <- <-. rewrite Hc, drop_all. intros []. }
  cbv zeta in H.
  assert (Hcalls : calls s' = calls s ++
            [CallUnwrap (recovery_transform value d u) wrapped (family spec)
               SYMMETRIC None]).
  { destruct (unwrap _ _ _ _ _ _); injection H as <- <-; cbn; by rewrite Hc. }
  rewrite Hcalls, drop_app_length. intros [[= <- <- <- <- <-]|[]].
  split_and!; try done.
  exists spec. unfold family.
  destruct (split1_cons "/" spec) as (hd & tl & ->). eauto.
Qed.

(** X2. A successful construction on the recovery path keeps the
    description: the instance's description holds exactly the caller's
    entries, the generator is not advanced, and the content key is what the
    one [unwrap] call of the construction returned. *)
Theorem recovery_keeps_description sk wk uk md s d m s' :
  described s md d ->
  is_Some (d !! value WRAPPED_DATA_KEY) ->
  init sk wk uk md s = (Ok m, s') ->
  heap s' !! material_description m = Some d
  /\ entropy s' = entropy s
  /\ exists u alg w fam,
       uk = Some u
       /\ new_calls s s' = [CallUnwrap alg w fam SYMMETRIC None]
       /\ unwrap u alg w fam SYMMETRIC None = Ok (decryption_key m).
Proof.
  intros Hd [enc Hw] H.
  destruct (recovery_success value generate _ _ _ _ _ _ _ _ _ Hd Hw H)
    as (u & spec & wrapped & -> & _ & _ & Hu & Hm & _ & Hc & He & _).
  split_and!; try done.
  exists u, (recovery_transform value d u), wrapped, (family spec).
  unfold new_calls. rewrite Hc, drop_app_length. done.
Qed.

(** X3. A wrapped-key entry that is not base64: with an unwrapping key
    at hand the construction raises the decoder's own error, a
    [binascii.Error] or a [ValueError] and never an [UnwrappingError], and
    calls no key capability. *)
Theorem undecodable_wrapped_key sk wk u md s d enc e :
  described s md d ->
  d !! value WRAPPED_DATA_KEY = Some enc ->
  b64decode enc = Raise e ->
  exists s',
    init sk wk (Some u) md s = (Raise e, s')
    /\ calls s' = calls s
    /\ (forall msg, e <> UnwrappingError msg)
    /\ ((exists b, e = binascii_Error b) \/ (exists msg, e = ValueError msg)).
Proof.
  intros Hd Hw Hdec.
  destruct (init_post_init value generate md s d Hd)
    as (l1 & s1 & Heq & Hl1 & _ & _ & Hc & _).
  rewrite Heq, (post_init_recovery value generate _ _ _ _ _ _ _ Hl1 Hw), Hdec.
  exists s1. split; [reflexivity|]. split; [exact Hc|].
  assert (Hkind : (exists b, e = binascii_Error b) \/ (exists msg, e = ValueError msg)).
  { destruct enc as [t|b]; cbn in Hdec; repeat case_match; simplify_eq; eauto. }
  split; [|exact Hkind].
  intros msg ->. destruct Hkind as [[? [=]]|[? [=]]].
Qed.

(** X4. An error raised by [unwrap] is the error of the construction:
    nothing catches or replaces it, and [unwrap] was the only capability
    called. *)
Theorem unwrap_error_propagates sk wk u md s d r s' alg w fam ty aad e :
  described s md d ->
  is_Some (d !! value WRAPPED_DATA_KEY) ->
  init sk wk (Some u) md s = (r, s') ->
  In (CallUnwrap alg w fam ty aad) (new_calls s s') ->
  unwrap u alg w fam ty aad = Raise e ->
  r = Raise e /\ new_calls s s' = [CallUnwrap alg w fam ty aad].
Proof.
  intros Hd [enc Hw] H.
  destruct (init_post_init value generate md s d Hd)
    as (l1 & s1 & Heq & Hl1 & _ & _ & Hc & _).
  rewrite Heq, (post_init_recovery value generate _ _ _ _ _ _ _ Hl1 Hw) in H.
  unfold new_calls.
  crunch H; cbn; rewrite Hc, ?drop_app_length, ?drop_all; cbn.
  all: intros Hin Hu; cbn in Hin; destruct_or?; simplify_eq; try done.
  all: split; congruence.
Qed.

(** X5. Errors on the generation path are not caught: when the generator
    raises, the construction raises the same error and [wrap] is never
    called; when [wrap] raises, the construction raises the same error. *)
Theorem generation_errors_propagate sk w uk md s d r s' :
  described s md d ->
  d !! value WRAPPED_DATA_KEY = None ->
  init sk (Some w) uk md s = (r, s') ->
  (forall fam len e,
      In (CallGenerate fam len) (new_calls s s') ->
      generate fam len (entropy s) = Raise e ->
      r = Raise e /\ new_calls s s' = [CallGenerate fam len])
  /\ (forall alg c aad e,
        In (CallWrap alg c aad) (new_calls s s') ->
        wrap w alg c aad = Raise e ->
        r = Raise e).
Proof.
  intros Hd Hw H.
  destruct (init_post_init value generate md s d Hd)
    as (l1 & s1 & Heq & Hl1 & _ & _ & Hc & He).
  rewrite Heq, (post_init_generation value generate _ _ _ _ _ _ Hl1 Hw) in H.
  unfold new_calls. rewrite He in H.
  crunch H; cbn; rewrite Hc, ?drop_app_length, ?drop_all; cbn.
  all: split; intros; cbn in *; destruct_or?; simplify_eq; try done.
  all: try split; congruence.
Qed.

(** X6. After a successful construction on the generation path the
    content key of the instance is the key the generator returned; [wrap]
    was called once, with exactly the raw bytes of that key and no
    associated data; and the generator was advanced by one draw. *)
Theorem content_key_is_generated_key sk wk uk md s d m s' :
  described s md d ->
  d !! value WRAPPED_DATA_KEY = None ->
  init sk wk uk md s = (Ok m, s') ->
  exists fam len alg,
    new_calls s s' = [CallGenerate fam len; CallWrap alg (key (encryption_key m)) None]
    /\ generate fam len (entropy s) = Ok (encryption_key m)
    /\ entropy s' = S (entropy s).
Proof.
  intros Hd Hw H.
  destruct (generation_success value generate _ _ _ _ _ _ _ _ Hd Hw H)
    as (w & spec & len & wrapped & _ & _ & _ & Hg & _ & _ & _ & _ & Hc & He & _).
  exists (family spec), len, (generation_transform value d w).
  unfold new_calls. rewrite Hc, drop_app_length. done.
Qed.

(** X7. The key length asked of the generator: for an algorithm spec
    [fam/seg] whose segment after the first slash reads as the integer [n],
    a generation-path construction with a wrapping key asks first for a key
    of family [fam] and of [n] divided by eight, rounded down, bytes (so a
    bit length that is no multiple of eight loses its remainder, and a
    negative one gives a negative length). *)
Theorem key_length_rounds_down sk w uk md s d fam seg n r s' :
  described s md d ->
  d !! value WRAPPED_DATA_KEY = None ->
  d !! value CONTENT_ENCRYPTION_ALGORITHM = Some (PyStr (fam ++ String "/" seg)) ->
  ~ In "/"%char (list_ascii_of_string fam) ->
  Str.int seg = Some n ->
  init sk (Some w) uk md s = (r, s') ->
  exists q cs,
    new_calls s s' = CallGenerate fam (Some q) :: cs
    /\ (8 * q <= n < 8 * q + 8)%Z.
Proof.
  intros Hd Hw Hspec Hfam Hint H.
  destruct (init_post_init value generate md s d Hd)
    as (l1 & s1 & Heq & Hl1 & _ & _ & Hc & He).
  rewrite Heq, (post_init_generation value generate _ _ _ _ _ _ Hl1 Hw) in H.
  unfold content_key_algorithm_of, key_length, family in H.
  rewrite Hspec, (split1_first_slash _ _ Hfam) in H. cbn in H. rewrite Hint in H.
  exists (n / 8)%Z. unfold new_calls.
  assert (Hq : (8 * (n / 8) <= n < 8 * (n / 8) + 8)%Z).
  { pose proof (Z.div_mod n 8 ltac:(lia)). pose proof (Z.mod_pos_bound n 8 ltac:(lia)).
    lia. }
  crunch H; cbn; rewrite Hc, <- ?app_assoc, drop_app_length; eauto.
Qed.

(** X8. An algorithm spec that is a [bytes] object and not a string: on
    the generation path with a wrapping key, and on the recovery path with
    an unwrapping key and a wrapped key that decodes, the construction
    raises [TypeError] (splitting bytes at a string separator) before any
    key capability is called. *)
Theorem bytes_spec_raises_type_error sk md s d b :
  described s md d ->
  d !! value CONTENT_ENCRYPTION_ALGORITHM = Some (PyBytes b) ->
  (d !! value WRAPPED_DATA_KEY = None ->
   forall w uk, exists msg s',
     init sk (Some w) uk md s = (Raise (TypeError msg), s')
     /\ calls s' = calls s)
  /\ (forall enc wrapped,
        d !! value WRAPPED_DATA_KEY = Some enc ->
        b64decode enc = Ok wrapped ->
        forall wk u, exists msg s',
          init sk wk (Some u) md s = (Raise (TypeError msg), s')
          /\ calls s' = calls s).
Proof.
  intros Hd Hspec.
  destruct (init_post_init value generate md s d Hd)
    as (l1 & s1 & Heq & Hl1 & _ & _ & Hc & _).
  split.
  - intros Hw w uk.
    rewrite Heq, (post_init_generation value generate _ _ _ _ _ _ Hl1 Hw).
    unfold content_key_algorithm_of. rewrite Hspec. eauto.
  - intros enc wrapped Hw Hdec wk u.
    rewrite Heq, (post_init_recovery value generate _ _ _ _ _ _ _ Hl1 Hw), Hdec.
    unfold content_key_algorithm_of. rewrite Hspec. eauto.
Qed.

(** X9. The generation path only adds to the description: every entry of
    the caller's description, the algorithm entries included, is in the new
    description with its value unchanged, and the keys of the new
    description are the caller's and the three recognized ones. *)
Theorem generation_extends_description sk wk uk md s d m s' :
  distinct_keys value ->
  described s md d ->
  d !! value WRAPPED_DATA_KEY = None ->
  init sk wk uk md s = (Ok m, s') ->
  exists d',
    heap s' !! material_description m = Some d'
    /\ d ⊆ d'
    /\ dom d' = dom d ∪ {[value WRAPPED_DATA_KEY;
                            value CONTENT_ENCRYPTION_ALGORITHM;
                            value CONTENT_KEY_WRAPPING_ALGORITHM]}.
Proof.
  intros Hk Hd Hw H.
  destruct (generation_success value generate _ _ _ _ _ _ _ _ Hd Hw H)
    as (w & spec & len & wrapped & _ & Hcka & _ & _ & _ & Hnew & _).
  eexists. split; [exact Hnew|]. split.
  - apply map_subseteq_spec. intros k v Hv.
    destruct (decide (k = value CONTENT_KEY_WRAPPING_ALGORITHM)) as [->|Ha].
    { rewrite new_description_wrapping_algorithm.
      unfold generation_transform. by rewrite Hv. }
    destruct (decide (k = value CONTENT_ENCRYPTION_ALGORITHM)) as [->|Hc].
    { rewrite new_description_content_algorithm by done.
      rewrite <- Hcka. unfold content_key_algorithm_of. by rewrite Hv. }
    destruct (decide (k = value WRAPPED_DATA_KEY)) as [->|Hwk]; [congruence|].
    by rewrite new_description_other.
  - rewrite new_description_dom. apply set_eq. intros x.
    rewrite !elem_of_union, !elem_of_singleton. tauto.
Qed.

(** X10. A construction depends on the description through its entries
    only: from two stores in which the descriptions passed hold the same
    entries (one of them possibly no description at all, which stands for
    the empty one), with the generator in the same state, the
    constructions end alike and make the same capability calls. *)
Theorem outcome_depends_on_entries sk wk uk md s md' s0 d :
  described s md d ->
  described s0 md' d ->
  entropy s = entropy s0 ->
  alike (init sk wk uk md s) (init sk wk uk md' s0)
  /\ new_calls s (init sk wk uk md s).2 = new_calls s0 (init sk wk uk md' s0).2.
Proof.
  intros Hd Hd' He.
  destruct (init_post_init value generate md s d Hd)
    as (l1 & s1 & Heq & Hl1 & _ & _ & Hc & He1).
  destruct (init_post_init value generate md' s0 d Hd')
    as (l2 & s2 & Heq' & Hl2 & _ & _ & Hc' & He2).
  rewrite Heq, Heq'. unfold new_calls. rewrite <- Hc, <- Hc'.
  destruct (d !! value WRAPPED_DATA_KEY) as [enc|] eqn:Hw.
  - rewrite (post_init_recovery value generate _ _ _ _ _ _ _ Hl1 Hw),
      (post_init_recovery value generate _ _ _ _ _ _ _ Hl2 Hw).
    repeat first [progress cbv zeta | case_match]; simplify_eq; cbn;
      rewrite ?drop_app_length, ?drop_all, ?Hl1, ?Hl2; done.
  - rewrite (post_init_generation value generate _ _ _ _ _ _ Hl1 Hw),
      (post_init_generation value generate _ _ _ _ _ _ Hl2 Hw).
    rewrite He1, He2, <- He.
    repeat first [progress cbv zeta | case_match]; simplify_eq; cbn;
      rewrite ?drop_app_length, ?drop_all, ?lookup_insert_eq; done.
Qed.

(** X11. Generation followed by recovery: a construction from the
    description of a generated instance, with any unwrapping key, calls
    [unwrap] exactly once, and with the transform that [wrap] was called
    with, the bytes that [wrap] returned and the family the key was
    generated for; neither the generator nor [wrap] is called again, and if
    it succeeds its description holds the same entries as the first
    instance's. *)
Theorem recovery_after_generation sk w uk0 md s d m1 s1 sk' wk' u r s2 :
  distinct_keys value ->
  described s md d ->
  d !! value WRAPPED_DATA_KEY = None ->
  init sk (Some w) uk0 md s = (Ok m1, s1) ->
  init sk' wk' (Some u) (Some (material_description m1)) s1 = (r, s2) ->
  exists fam len alg wrapped,
    new_calls s s1
    = [CallGenerate fam len; CallWrap alg (key (encryption_key m1)) None]
    /\ wrap w alg (key (encryption_key m1)) None = Ok wrapped
    /\ new_calls s1 s2 = [CallUnwrap alg wrapped fam SYMMETRIC None]
    /\ forall m2, r = Ok m2 ->
         heap s2 !! material_description m2 = heap s1 !! material_description m1.
Proof.
  intros Hk Hd Hw H1 H2.
  destruct (generation_success value generate _ _ _ _ _ _ _ _ Hd Hw H1)
    as (w0 & spec & len & wrapped & [= <-] & Hcka & _ & _ & Hwrap & Hnew & _ & _
        & Hc & _).
  set (alg := generation_transform value d w) in *.
  set (d1 := new_description value d wrapped (PyStr spec) alg) in *.
  assert (Hd1 : described s1 (Some (material_description m1)) d1) by exact Hnew.
  assert (Hw1 : d1 !! value WRAPPED_DATA_KEY
                = Some (PyBytes (Base64.b64encode wrapped))).
  { apply new_description_wrapped_key, Hk. }
  assert (Hspec1 : content_key_algorithm_of value d1 = PyStr spec).
  { unfold content_key_algorithm_of, d1.
    rewrite new_description_content_algorithm by apply Hk. reflexivity. }
  assert (Halg1 : recovery_transform value d1 u = alg).
  { unfold recovery_transform, d1.
    rewrite new_description_wrapping_algorithm. reflexivity. }
  exists (family spec), len, alg, wrapped.
  split. { unfold new_calls. rewrite Hc, drop_app_length. reflexivity. }
  split. { exact Hwrap. }
  destruct (init_post_init value generate _ s1 d1 Hd1)
    as (l2 & s1' & Heq & Hl2 & _ & Hframe & Hc2 & _).
  rewrite Heq, (post_init_recovery value generate _ _ _ _ _ _ _ Hl2 Hw1) in H2.
  rewrite b64decode_b64encode, Hspec1, Halg1 in H2. cbv zeta in H2.
  unfold new_calls.
  destruct (unwrap u alg wrapped (family spec) SYMMETRIC None) as [k|e];
    injection H2 as <- <-; cbn; rewrite Hc2, drop_app_length.
  - split; [reflexivity|]. intros m2 [= <-]. cbn.
    change (heap s1' !! l2 = heap s1 !! material_description m1).
    rewrite Hl2. symmetry. exact Hnew.
  - split; [reflexivity|]. intros m2 [=].
Qed.

(** X12. The description of a generated instance cannot be loaded back
    without an unwrapping key: a construction from it with no unwrapping
    key raises [UnwrappingError], whatever wrapping key and signing key are
    passed, without calling a capability or advancing the generator. *)
Theorem generated_description_needs_unwrapping_key
    sk wk uk md s d m1 s1 sk' wk' :
  described s md d ->
  d !! value WRAPPED_DATA_KEY = None ->
  init sk wk uk md s = (Ok m1, s1) ->
  exists msg s2,
    init sk' wk' None (Some (material_description m1)) s1
    = (Raise (UnwrappingError msg), s2)
    /\ calls s2 = calls s1
    /\ entropy s2 = entropy s1.
Proof.
  intros Hd Hw H1.
  destruct (generation_success value generate _ _ _ _ _ _ _ _ Hd Hw H1)
    as (w0 & spec & len & wrapped & _ & _ & _ & _ & _ & Hnew & _).
  assert (Hw1 : is_Some (new_description value d wrapped (PyStr spec)
                           (generation_transform value d w0)
                         !! value WRAPPED_DATA_KEY)).
  { apply elem_of_dom. rewrite new_description_dom.
    rewrite !elem_of_union, !elem_of_singleton. tauto. }
  destruct Hw1 as [enc Hw1].
  destruct (init_post_init value generate (Some (material_description m1)) s1 _ Hnew)
    as (l2 & s1' & Heq & Hl2 & _ & _ & Hc2 & He2).
  rewrite Heq, (post_init_recovery value generate _ _ _ _ _ _ _ Hl2 Hw1).
  eauto.
Qed.

(** X13. The keys of an instance: after any successful construction the
    signing key and the verification key are both the signing key that was
    passed, the decryption key is the encryption key, and at least one key
    capability was called on the way. *)
Theorem key_roles sk wk uk md s d m s' :
  described s md d ->
  init sk wk uk md s = (Ok m, s') ->
  signing_key m = sk
  /\ verification_key m = sk
  /\ decryption_key m = encryption_key m
  /\ calls s' <> calls s.
Proof.
  intros Hd H.
  assert (Hne : forall (l : list Call) c cs, l ++ c :: cs <> l).
  { intros l c cs E. apply (f_equal length) in E.
    rewrite length_app in E. cbn in E. lia. }
  destruct (d !! value WRAPPED_DATA_KEY) as [enc|] eqn:Hw.
  - destruct (recovery_success value generate _ _ _ _ _ _ _ _ _ Hd Hw H)
      as (u & spec & wrapped & _ & _ & _ & _ & _ & _ & Hc & _ & Hsk).
    split_and!; try done. rewrite Hc. apply Hne.
  - destruct (generation_success value generate _ _ _ _ _ _ _ _ Hd Hw H)
      as (w & spec & len & wrapped & _ & _ & _ & _ & _ & _ & _ & _ & Hc & _
          & Hsk & _).
    split_and!; try done. rewrite Hc. apply Hne.
Qed.

(** X14. The recovery path returns an instance whenever the wrapped-key
    entry decodes, the algorithm spec is a string and [unwrap] returns a
    key: the part of the spec after its first slash is not read, and no
    wrapping key is needed. The decryption key is the unwrapped key and the
    description holds the caller's entries. *)
Theorem recovery_succeeds sk wk u md s d enc w spec k :
  described s md d ->
  d !! value WRAPPED_DATA_KEY = Some enc ->
  b64decode enc = Ok w ->
  content_key_algorithm_of value d = PyStr spec ->
  unwrap u (recovery_transform value d u) w (family spec) SYMMETRIC None = Ok k ->
  exists m s',
    init sk wk (Some u) md s = (Ok m, s')
    /\ decryption_key m = k
    /\ heap s' !! material_description m = Some d.
Proof.
  intros Hd Hw Hdec Hspec Hu.
  destruct (init_post_init value generate md s d Hd)
    as (l1 & s1 & Heq & Hl1 & _ & _ & Hc & _).
  rewrite Heq, (post_init_recovery value generate _ _ _ _ _ _ _ Hl1 Hw).
  rewrite Hdec, Hspec. cbv zeta. rewrite Hu.
  eexists _, _. split; [reflexivity|]. split; [reflexivity|]. exact Hl1.
Qed.

(** X15. The generation path returns an instance whenever the algorithm
    spec is a string whose key length is read, the generator returns a key
    and [wrap] returns its wrapping: the encryption key is the generated
    key, and the description of the instance is a dictionary that did not
    exist before. *)
Theorem generation_succeeds sk w uk md s d spec len ck wrapped :
  described s md d ->
  d !! value WRAPPED_DATA_KEY = None ->
  content_key_algorithm_of value d = PyStr spec ->
  key_length spec = Ok len ->
  generate (family spec) len (entropy s) = Ok ck ->
  wrap w (generation_transform value d w) (key ck) None = Ok wrapped ->
  exists m s',
    init sk (Some w) uk md s = (Ok m, s')
    /\ encryption_key m = ck
    /\ is_Some (heap s' !! material_description m)
    /\ heap s !! material_description m = None.
Proof.
  intros Hd Hw Hspec Hlen Hg Hwrap.
  destruct (init_post_init value generate md s d Hd)
    as (l1 & s1 & Heq & Hl1 & Hfresh & Hframe & Hc & He).
  rewrite Heq, (post_init_generation value generate _ _ _ _ _ _ Hl1 Hw).
  rewrite Hspec, Hlen. cbv zeta. rewrite He, Hg, Hwrap.
  eexists _, _. split; [reflexivity|]. split; [reflexivity|]. cbn. split.
  - rewrite lookup_insert_eq. eauto.
  - pose proof (is_fresh (dom (heap s1))) as Hf.
    destruct (heap s !! fresh (dom (heap s1))) eqn:E; [|done].
    exfalso. apply Hf. apply elem_of_dom. rewrite Hframe by eauto. eauto.
Qed.

(** X16. An algorithm spec without a slash: a generation-path
    construction with a wrapping key asks the generator first for a key of
    the family that is the whole spec, with no key length. *)
Theorem spec_without_slash sk w uk md s d spec r s' :
  described s md d ->
  d !! value WRAPPED_DATA_KEY = None ->
  d !! value CONTENT_ENCRYPTION_ALGORITHM = Some (PyStr spec) ->
  ~ In "/"%char (list_ascii_of_string spec) ->
  init sk (Some w) uk md s = (r, s') ->
  exists cs, new_calls s s' = CallGenerate spec None :: cs.
Proof.
  intros Hd Hw Hspec Hno H.
  destruct (init_post_init value generate md s d Hd)
    as (l1 & s1 & Heq & Hl1 & _ & _ & Hc & He).
  rewrite Heq, (post_init_generation value generate _ _ _ _ _ _ Hl1 Hw) in H.
  unfold content_key_algorithm_of, key_length, family in H.
  rewrite Hspec, (split1_no_sep _ _ Hno) in H. cbn in H.
  unfold new_calls.
  crunch H; cbn; rewrite Hc, <- ?app_assoc, drop_app_length; eauto.
Qed.

End Extras.

(** X17. Translating a wrapping algorithm name through the table twice
    gives what translating it once gives: no transform name of the table is
    itself a name the table translates. *)
Theorem wrapping_transformation_idempotent a :
  _wrapping_transformation (_wrapping_transformation a)
  = _wrapping_transformation a.
Proof.
  unfold _wrapping_transformation, _WRAPPING_TRANSFORMATION.
  destruct (decide (a = "AES")) as [->|H1]; [vm_compute; reflexivity|].
  destruct (decide (a = "RSA")) as [->|H2]; [vm_compute; reflexivity|].
  assert (E : (<["AES" := "AESWrap"]>
                 (<["RSA" := "RSA/ECB/OAEPWithSHA-256AndMGF1Padding"]> ∅)
               : gmap string string) !! a = None).
  { rewrite !lookup_insert_ne by congruence. apply lookup_empty. }
  rewrite E, E. reflexivity.
Qed.

(** ** The claims on the concrete environment *)

Module DemoFacts.
Import Demo.

Abbreviation init := (__init__ value generate).

Lemma distinct : distinct_keys value.
Proof. repeat split; discriminate. Qed.

Lemma wrapping_matches_itself alg fam : matching wrapping wrapping alg fam.
Proof.
  intros content wrapped [= <-].
  eexists. split; [reflexivity|]. cbn. apply rev_involutive.
Qed.

Lemma checking_matches_wrapping alg :
  matching wrapping (checking_key "AES") alg "AES".
Proof.
  intros content wrapped [= <-].
  eexists. split; [reflexivity|]. cbn. apply rev_involutive.
Qed.

Lemma checking_refuses alg wrapped :
  unwrap (checking_key "AES") alg wrapped "RSA" SYMMETRIC None
  = Raise (UnwrappingError "algorithm mismatch").
Proof. reflexivity. Qed.

Lemma holding_described d : described (holding d) (Some 1%positive) d.
Proof. apply lookup_singleton_eq. Qed.

Lemma d_stored_wrapped_key :
  d_stored !! value WRAPPED_DATA_KEY = Some (PyStr "AQID").
Proof. apply lookup_singleton_eq. Qed.

Lemma d_note_wrapped_key : d_note !! value WRAPPED_DATA_KEY = None.
Proof. apply lookup_singleton_ne. discriminate. Qed.

Lemma d_spec_wrapped_key spec : d_spec spec !! value WRAPPED_DATA_KEY = None.
Proof. apply lookup_singleton_ne. discriminate. Qed.

Lemma d_spec_content_algorithm spec :
  d_spec spec !! value CONTENT_ENCRYPTION_ALGORITHM = Some (PyStr spec).
Proof. apply lookup_singleton_eq. Qed.

End DemoFacts.

Import Demo DemoFacts.

(** The round trip on the toy keys, with an unwrapping key that refuses
    every family but AES: the key is generated and wrapped, and recovered
    by the one [unwrap] call, on the bytes that [wrap] returned. *)
Lemma round_trip_demo :
  exists m1 s1 wrapped m2 s2,
    init signing (Some wrapping) None None s0 = (Ok m1, s1)
    /\ new_calls s0 s1
       = [CallGenerate "AES" (Some 32%Z);
          CallWrap (PyStr "AESWrap") (key (encryption_key m1)) None]
    /\ wrap wrapping (PyStr "AESWrap") (key (encryption_key m1)) None = Ok wrapped
    /\ init signing None (Some (checking_key "AES"))
         (Some (material_description m1)) s1
       = (Ok m2, s2)
    /\ new_calls s1 s2 = [CallUnwrap (PyStr "AESWrap") wrapped "AES" SYMMETRIC None]
    /\ key (decryption_key m2) = key (encryption_key m1)
    /\ length (key (encryption_key m1)) = 32.
Proof.
  destruct (init signing (Some wrapping) None None s0) as [r s1] eqn:H1.
  assert (Hr : exists m1, r = Ok m1 /\ length (key (encryption_key m1)) = 32).
  { revert H1. vm_compute. intros [= <- _]. eexists. split; reflexivity. }
  destruct Hr as (m1 & -> & Hlen).
  destruct (round_trip value generate signing wrapping None None s0 ∅ "AES/256"
              m1 s1 signing None (checking_key "AES")
              distinct eq_refl (lookup_empty _) eq_refl H1
              (checking_matches_wrapping _))
    as (len & wrapped & d1 & m2 & s2 & Hc1 & Hw & _ & _ & H2 & Hc2 & _ & Hk).
  assert (Hl : len = Some 32%Z).
  { revert Hc1. unfold new_calls. revert H1. vm_compute.
    intros [= _ <-]. vm_compute. intros [= <-]. reflexivity. }
  subst len.
  exists m1, s1, wrapped, m2, s2. split_and!; auto.
Defined.

(** Path selection with both keys supplied: on a stored description the
    recovery path, with [unwrap] called and the construction succeeding;
    on a description without a wrapped key the generation path, with the
    generator and [wrap] called and the construction succeeding. *)
Lemma path_selection_demo :
  (exists m s',
     init signing (Some wrapping) (Some wrapping) (Some 1%positive) (holding d_stored)
     = (Ok m, s')
     /\ calls s' = [CallUnwrap (PyStr "AES") [x01; x02; x03] "AES" SYMMETRIC None]
     /\ key (decryption_key m) = [x03; x02; x01])
  /\ (exists m s' ck,
        init signing (Some wrapping) (Some wrapping) (Some 1%positive) (holding d_note)
        = (Ok m, s')
        /\ generate "AES" (Some 32%Z) 0 = Ok ck
        /\ calls s' = [CallGenerate "AES" (Some 32%Z);
                       CallWrap (PyStr "AESWrap") (key ck) None]
        /\ encryption_key m = ck).
Proof.
  split.
  - destruct (init signing (Some wrapping) (Some wrapping) (Some 1%positive)
                (holding d_stored)) as [r s'] eqn:H.
    destruct (path_selection value generate signing (Some wrapping) (Some wrapping)
                (Some 1%positive) (holding d_stored) d_stored r s'
                (holding_described d_stored) H)
      as (cs & Hcs & Hpath).
    rewrite d_stored_wrapped_key in Hpath.
    destruct Hpath as (_ & _ & _ & _ & Hrun).
    destruct (Hrun wrapping [x01; x02; x03] "AES/256" eq_refl eq_refl eq_refl)
      as (-> & m & -> & Hk).
    exists m, s'. split; [reflexivity|]. split; [exact Hcs|].
    rewrite Hk. reflexivity.
  - destruct (init signing (Some wrapping) (Some wrapping) (Some 1%positive)
                (holding d_note)) as [r s'] eqn:H.
    destruct (path_selection value generate signing (Some wrapping) (Some wrapping)
                (Some 1%positive) (holding d_note) d_note r s'
                (holding_described d_note) H)
      as (cs & Hcs & Hpath).
    rewrite d_note_wrapped_key in Hpath.
    destruct Hpath as (_ & _ & _ & _ & Hrun).
    destruct (Hrun wrapping "AES/256" (Some 32%Z) eq_refl eq_refl eq_refl)
      as (-> & m & -> & Hk).
    exists m, s', (encryption_key m). rewrite Hk. split_and!; try reflexivity.
    exact Hcs.
Defined.

(** The missing wrapping key, with no key at all and no description. *)
Lemma missing_key_demo :
  exists s',
    init signing None None None s0
    = (Raise (WrappingError
                "Cryptographic materials cannot be generated: no wrapping key"), s')
    /\ calls s' = calls s0.
Proof.
  destruct (missing_key_fails_fast value generate signing None s0 ∅ eq_refl)
    as [Hgen _].
  destruct (Hgen (lookup_empty _) None) as (s' & H & Hc & _).
  exists s'. auto.
Defined.

(** Immutability of a caller's dictionary with one entry. *)
Lemma description_immutability_demo :
  exists r s',
    init signing (Some wrapping) None (Some 1%positive) (holding d_note) = (r, s')
    /\ heap s' !! 1%positive = Some d_note.
Proof.
  destruct (init signing (Some wrapping) None (Some 1%positive) (holding d_note))
    as [r s'] eqn:H.
  destruct (description_immutability value generate signing (Some wrapping) None
              1%positive (holding d_note) d_note r s'
              (holding_described d_note) H)
    as [Hsame _].
  exists r, s'. auto.
Defined.

(** The new description for a caller's dictionary with an entry the
    constructor does not know. *)
Lemma generation_description_demo :
  exists m s' d',
    init signing (Some wrapping) None (Some 1%positive) (holding d_note) = (Ok m, s')
    /\ heap s' !! material_description m = Some d'
    /\ d' !! "note" = Some (PyStr "kept")
    /\ d' !! value CONTENT_KEY_WRAPPING_ALGORITHM = Some (PyStr "AESWrap").
Proof.
  destruct (init signing (Some wrapping) None (Some 1%positive) (holding d_note))
    as [r s'] eqn:H.
  assert (Hr : exists m, r = Ok m).
  { revert H. vm_compute. intros [= <- _]. eauto. }
  destruct Hr as [m ->].
  destruct (generation_description value generate signing (Some wrapping) None
              (Some 1%positive) (holding d_note) d_note m s'
              distinct (holding_described d_note) d_note_wrapped_key H)
    as (w & wrapped & d' & [= <-] & _ & Hd' & _ & _ & Halg & Hother & _).
  exists m, s', d'. split_and!; try done.
  rewrite Hother by discriminate. reflexivity.
Defined.

(** The wrapped-key entry produced from the empty description. *)
Lemma wrapped_key_entry_is_bytes_demo :
  exists m s' d' b,
    init signing (Some wrapping) None None s0 = (Ok m, s')
    /\ heap s' !! material_description m = Some d'
    /\ d' !! value WRAPPED_DATA_KEY = Some (PyBytes b).
Proof.
  destruct (init signing (Some wrapping) None None s0) as [r s'] eqn:H.
  assert (Hr : exists m, r = Ok m).
  { revert H. vm_compute. intros [= <- _]. eauto. }
  destruct Hr as [m ->].
  destruct (wrapped_key_entry_is_bytes value generate signing (Some wrapping) None
              None s0 ∅ m s' distinct eq_refl (lookup_empty _) H)
    as (d' & b & Hd' & Hb & _).
  exists m, s', d', b. auto.
Defined.

(** The transform for a wrapping key whose algorithm is AES: with no
    entry in the description [wrap] is called with AESWrap, which the new
    description records; with the entry RSA in the description [wrap] is
    called with RSA, as the entry is not translated. *)
Lemma wrapping_transform_demo :
  (exists m s' d',
     init signing (Some wrapping) None None s0 = (Ok m, s')
     /\ new_calls s0 s'
        = [CallGenerate "AES" (Some 32%Z);
           CallWrap (PyStr "AESWrap") (key (encryption_key m)) None]
     /\ heap s' !! material_description m = Some d'
     /\ d' !! value CONTENT_KEY_WRAPPING_ALGORITHM = Some (PyStr "AESWrap"))
  /\ (exists m s',
        init signing (Some wrapping) None (Some 1%positive)
          (holding {[value CONTENT_KEY_WRAPPING_ALGORITHM := PyStr "RSA"]})
        = (Ok m, s')
        /\ new_calls (holding {[value CONTENT_KEY_WRAPPING_ALGORITHM := PyStr "RSA"]}) s'
           = [CallGenerate "AES" (Some 32%Z);
              CallWrap (PyStr "RSA") (key (encryption_key m)) None]).
Proof.
  split.
  - destruct (init signing (Some wrapping) None None s0) as [r s'] eqn:H.
    pose proof (wrapping_transform_resolution value generate signing wrapping None
                  None s0 ∅ r s' eq_refl (lookup_empty _) H) as Ht.
    cbv zeta in Ht. rewrite lookup_empty in Ht.
    destruct Ht as (_ & _ & _ & Hrun & _).
    destruct (Hrun "AES/256" (Some 32%Z) _ eq_refl eq_refl eq_refl)
      as (Hc & m & d' & -> & Hm & Hd').
    exists m, s', d'. split; [reflexivity|]. split; [|auto].
    rewrite Hc. revert H. vm_compute. intros [= <- _]. reflexivity.
  - destruct (init signing (Some wrapping) None (Some 1%positive)
                (holding {[value CONTENT_KEY_WRAPPING_ALGORITHM := PyStr "RSA"]}))
      as [r s'] eqn:H.
    pose proof (wrapping_transform_resolution value generate signing wrapping None
                  (Some 1%positive)
                  (holding {[value CONTENT_KEY_WRAPPING_ALGORITHM := PyStr "RSA"]})
                  {[value CONTENT_KEY_WRAPPING_ALGORITHM := PyStr "RSA"]}
                  r s' (holding_described _) eq_refl H) as Ht.
    cbv zeta in Ht. rewrite lookup_singleton_eq in Ht.
    destruct Ht as (_ & _ & _ & Hrun & _).
    destruct (Hrun "AES/256" (Some 32%Z) _ eq_refl eq_refl eq_refl)
      as (Hc & m & d' & -> & _).
    exists m, s'. split; [reflexivity|].
    rewrite Hc. revert H. vm_compute. intros [= <- _]. reflexivity.
Defined.

(** The defaults on the empty description, and the spec AES. *)
Lemma defaults_demo :
  exists r s',
    init signing (Some wrapping) None None s0 = (r, s')
    /\ (exists cs, calls s' = calls s0 ++ CallGenerate "AES" (Some 32%Z) :: cs)
    /\ exists m s2',
         init signing (Some wrapping) None (Some 1%positive) (holding (d_spec "AES"))
         = (Ok m, s2').
Proof.
  destruct (init signing (Some wrapping) None None s0) as [r s'] eqn:H.
  destruct (defaults_and_key_length value generate signing wrapping None None s0 r s'
              (Some 1%positive) (holding (d_spec "AES")) (d_spec "AES")
              eq_refl H (holding_described _) (d_spec_wrapped_key _)
              (d_spec_content_algorithm _))
    as (_ & Hcall & _ & Hsucceeds).
  destruct (Hsucceeds _ _ eq_refl eq_refl) as (m & s2' & Hm & _).
  exists r, s'. eauto.
Defined.

(** The malformed length segment of the spec AES/abc. *)
Lemma malformed_key_length_demo :
  exists msg s',
    init signing (Some wrapping) None (Some 1%positive) (holding (d_spec "AES/abc"))
    = (Raise (ValueError msg), s')
    /\ calls s' = calls (holding (d_spec "AES/abc")).
Proof.
  assert (Hfam : ~ In "/"%char (list_ascii_of_string "AES")).
  { cbn. intros [H|[H|[H|[]]]]; discriminate. }
  destruct (malformed_key_length value generate signing wrapping None
              (Some 1%positive) (holding (d_spec "AES/abc")) (d_spec "AES/abc")
              "AES" "abc" (holding_described _) (d_spec_wrapped_key _)
              (d_spec_content_algorithm _) Hfam eq_refl)
    as (msg & s' & H & Hc & _).
  exists msg, s'. auto.
Defined.

(** ** The further properties on the concrete environment *)

(** The arguments of [unwrap] for the stored description. *)
Lemma recovery_unwrap_arguments_demo :
  exists r s',
    init signing None (Some wrapping) (Some 1%positive) (holding d_stored) = (r, s')
    /\ b64decode (PyStr "AQID") = Ok [x01; x02; x03].
Proof.
  destruct (init signing None (Some wrapping) (Some 1%positive) (holding d_stored))
    as [r s'] eqn:H.
  assert (Hin : In (CallUnwrap (PyStr "AES") [x01; x02; x03] "AES" SYMMETRIC None)
                  (new_calls (holding d_stored) s')).
  { revert H. vm_compute. intros [= _ <-]. vm_compute. auto. }
  destruct (recovery_unwrap_arguments value generate signing None wrapping
              (Some 1%positive) (holding d_stored) d_stored (PyStr "AQID") r s'
              _ _ _ _ _ (holding_described _) d_stored_wrapped_key H Hin)
    as (_ & Hdec & _).
  exists r, s'. auto.
Defined.

(** Recovery from the stored description keeps it. *)
Lemma recovery_keeps_description_demo :
  exists m s',
    init signing None (Some wrapping) (Some 1%positive) (holding d_stored) = (Ok m, s')
    /\ heap s' !! material_description m = Some d_stored.
Proof.
  destruct (init signing None (Some wrapping) (Some 1%positive) (holding d_stored))
    as [r s'] eqn:H.
  assert (Hr : exists m, r = Ok m).
  { revert H. vm_compute. intros [= <- _]. eauto. }
  destruct Hr as [m ->].
  destruct (recovery_keeps_description value generate signing None (Some wrapping)
              (Some 1%positive) (holding d_stored) d_stored m s'
              (holding_described _) (mk_is_Some _ _ d_stored_wrapped_key) H)
    as (Hm & _).
  exists m, s'. auto.
Defined.

(** A stored key of one character does not decode. *)
Lemma undecodable_wrapped_key_demo :
  exists s',
    init signing None (Some wrapping) (Some 1%positive)
      (holding {[value WRAPPED_DATA_KEY := PyStr "A"]})
    = (Raise (binascii_Error Base64.InvalidLength), s')
    /\ calls s' = [].
Proof.
  destruct (undecodable_wrapped_key value generate signing None wrapping
              (Some 1%positive) (holding {[value WRAPPED_DATA_KEY := PyStr "A"]})
              {[value WRAPPED_DATA_KEY := PyStr "A"]} (PyStr "A")
              (binascii_Error Base64.InvalidLength)
              (holding_described _) (lookup_singleton_eq _ _) eq_refl)
    as (s' & H & Hc & _).
  exists s'. auto.
Defined.

(** An unwrapping key that cannot unwrap. *)
Lemma unwrap_error_propagates_demo :
  exists s',
    init signing None (Some (raw_key "AES" [])) (Some 1%positive) (holding d_stored)
    = (Raise (OtherError "NotImplementedError"), s').
Proof.
  destruct (init signing None (Some (raw_key "AES" [])) (Some 1%positive)
              (holding d_stored)) as [r s'] eqn:H.
  assert (Hin : In (CallUnwrap (PyStr "AES") [x01; x02; x03] "AES" SYMMETRIC None)
                  (new_calls (holding d_stored) s')).
  { revert H. vm_compute. intros [= _ <-]. vm_compute. auto. }
  destruct (unwrap_error_propagates value generate signing None (raw_key "AES" [])
              (Some 1%positive) (holding d_stored) d_stored r s'
              _ _ _ _ _ (OtherError "NotImplementedError")
              (holding_described _) (mk_is_Some _ _ d_stored_wrapped_key) H Hin
              eq_refl)
    as [-> _].
  exists s'. reflexivity.
Defined.

(** A wrapping key that cannot wrap. *)
Lemma generation_errors_propagate_demo :
  exists s',
    init signing (Some (raw_key "AES" [])) None None s0
    = (Raise (OtherError "NotImplementedError"), s').
Proof.
  destruct (init signing (Some (raw_key "AES" [])) None None s0) as [r s'] eqn:H.
  destruct (generation_errors_propagate value generate signing (raw_key "AES" [])
              None None s0 ∅ r s' eq_refl (lookup_empty _) H)
    as [_ Hwrap].
  assert (Hc : exists c, In (CallWrap (PyStr "AESWrap") c None) (new_calls s0 s')).
  { revert H. vm_compute. intros [= _ <-]. vm_compute. eauto. }
  destruct Hc as [c Hin].
  rewrite (Hwrap _ _ _ (OtherError "NotImplementedError") Hin eq_refl).
  exists s'. reflexivity.
Defined.

(** The generated key of the toy generator. *)
Lemma content_key_is_generated_key_demo :
  exists m s' fam len,
    init signing (Some wrapping) None None s0 = (Ok m, s')
    /\ generate fam len 0 = Ok (encryption_key m).
Proof.
  destruct (init signing (Some wrapping) None None s0) as [r s'] eqn:H.
  assert (Hr : exists m, r = Ok m).
  { revert H. vm_compute. intros [= <- _]. eauto. }
  destruct Hr as [m ->].
  destruct (content_key_is_generated_key value generate signing (Some wrapping)
              None None s0 ∅ m s' eq_refl (lookup_empty _) H)
    as (fam & len & alg & _ & Hg & _).
  exists m, s', fam, len. auto.
Defined.

(** A bit length that is no multiple of eight. *)
Lemma key_length_rounds_down_demo :
  exists r s' q cs,
    init signing (Some wrapping) None (Some 1%positive) (holding (d_spec "AES/129"))
    = (r, s')
    /\ new_calls (holding (d_spec "AES/129")) s' = CallGenerate "AES" (Some q) :: cs
    /\ (8 * q <= 129 < 8 * q + 8)%Z.
Proof.
  destruct (init signing (Some wrapping) None (Some 1%positive)
              (holding (d_spec "AES/129"))) as [r s'] eqn:H.
  assert (Hfam : ~ In "/"%char (list_ascii_of_string "AES")).
  { cbn. intros [E|[E|[E|[]]]]; discriminate E. }
  destruct (key_length_rounds_down value generate signing wrapping None
              (Some 1%positive) (holding (d_spec "AES/129")) (d_spec "AES/129")
              "AES" "129" 129%Z r s'
              (holding_described _) (d_spec_wrapped_key _)
              (d_spec_content_algorithm "AES/129") Hfam eq_refl H)
    as (q & cs & Hc & Hq).
  exists r, s', q, cs. auto.
Defined.

(** An algorithm spec given as bytes. *)
Lemma bytes_spec_raises_type_error_demo :
  exists msg s',
    init signing (Some wrapping) None (Some 1%positive)
      (holding {[value CONTENT_ENCRYPTION_ALGORITHM := PyBytes [x41; x45; x53]]})
    = (Raise (TypeError msg), s').
Proof.
  destruct (bytes_spec_raises_type_error value generate signing
              (Some 1%positive)
              (holding {[value CONTENT_ENCRYPTION_ALGORITHM := PyBytes [x41; x45; x53]]})
              {[value CONTENT_ENCRYPTION_ALGORITHM := PyBytes [x41; x45; x53]]}
              [x41; x45; x53]
              (holding_described _) (lookup_singleton_eq _ _))
    as [Hgen _].
  destruct (Hgen eq_refl wrapping None) as (msg & s' & H & _).
  exists msg, s'. exact H.
Defined.

(** The caller's entry in the generated description. *)
Lemma generation_extends_description_demo :
  exists m s' d',
    init signing (Some wrapping) None (Some 1%positive) (holding d_note) = (Ok m, s')
    /\ heap s' !! material_description m = Some d'
    /\ d_note ⊆ d'.
Proof.
  destruct (init signing (Some wrapping) None (Some 1%positive) (holding d_note))
    as [r s'] eqn:H.
  assert (Hr : exists m, r = Ok m).
  { revert H. vm_compute. intros [= <- _]. eauto. }
  destruct Hr as [m ->].
  destruct (generation_extends_description value generate signing (Some wrapping)
              None (Some 1%positive) (holding d_note) d_note m s'
              distinct (holding_described _) d_note_wrapped_key H)
    as (d' & Hd' & Hsub & _).
  exists m, s', d'. auto.
Defined.

(** No description and a stored empty description. *)
Lemma outcome_depends_on_entries_demo :
  alike (init signing (Some wrapping) None None s0)
        (init signing (Some wrapping) None (Some 1%positive) (holding ∅)).
Proof.
  apply (outcome_depends_on_entries value generate signing (Some wrapping) None
           None s0 (Some 1%positive) (holding ∅) ∅
           eq_refl (holding_described _) eq_refl).
Defined.

(** Recovery from the description the toy keys generated. *)
Lemma recovery_after_generation_demo :
  exists m1 s1 r s2 alg wrapped fam,
    init signing (Some wrapping) None None s0 = (Ok m1, s1)
    /\ init signing None (Some wrapping) (Some (material_description m1)) s1 = (r, s2)
    /\ wrap wrapping alg (key (encryption_key m1)) None = Ok wrapped
    /\ new_calls s1 s2 = [CallUnwrap alg wrapped fam SYMMETRIC None].
Proof.
  destruct (init signing (Some wrapping) None None s0) as [r1 s1] eqn:H1.
  assert (Hr : exists m1, r1 = Ok m1).
  { revert H1. vm_compute. intros [= <- _]. eauto. }
  destruct Hr as [m1 ->].
  destruct (init signing None (Some wrapping) (Some (material_description m1)) s1)
    as [r s2] eqn:H2.
  destruct (recovery_after_generation value generate signing wrapping None None
              s0 ∅ m1 s1 signing None wrapping r s2
              distinct eq_refl (lookup_empty _) H1 H2)
    as (fam & len & alg & wrapped & _ & Hw & Hc & _).
  exists m1, s1, r, s2, alg, wrapped, fam. auto.
Defined.

(** The generated description and the wrapping key alone. *)
Lemma generated_description_needs_unwrapping_key_demo :
  exists m1 s1 msg s2,
    init signing (Some wrapping) None None s0 = (Ok m1, s1)
    /\ init signing (Some wrapping) None (Some (material_description m1)) s1
       = (Raise (UnwrappingError msg), s2).
Proof.
  destruct (init signing (Some wrapping) None None s0) as [r1 s1] eqn:H1.
  assert (Hr : exists m1, r1 = Ok m1).
  { revert H1. vm_compute. intros [= <- _]. eauto. }
  destruct Hr as [m1 ->].
  destruct (generated_description_needs_unwrapping_key value generate signing
              (Some wrapping) None None s0 ∅ m1 s1 signing (Some wrapping)
              eq_refl (lookup_empty _) H1)
    as (msg & s2 & H2 & _).
  exists m1, s1, msg, s2. auto.
Defined.

(** The roles of the toy keys. *)
Lemma key_roles_demo :
  exists m s',
    init signing (Some wrapping) None None s0 = (Ok m, s')
    /\ verification_key m = signing.
Proof.
  destruct (init signing (Some wrapping) None None s0) as [r s'] eqn:H.
  assert (Hr : exists m, r = Ok m).
  { revert H. vm_compute. intros [= <- _]. eauto. }
  destruct Hr as [m ->].
  destruct (key_roles value generate signing (Some wrapping) None None s0 ∅ m s'
              eq_refl H)
    as (_ & Hv & _).
  exists m, s'. auto.
Defined.

(** Recovery of the stored key succeeds. *)
Lemma recovery_succeeds_demo :
  exists m s',
    init signing None (Some wrapping) (Some 1%positive) (holding d_stored) = (Ok m, s')
    /\ key (decryption_key m) = [x03; x02; x01].
Proof.
  destruct (recovery_succeeds value generate signing None wrapping
              (Some 1%positive) (holding d_stored) d_stored (PyStr "AQID")
              [x01; x02; x03] "AES/256" (raw_key "AES" [x03; x02; x01])
              (holding_described _) d_stored_wrapped_key eq_refl eq_refl eq_refl)
    as (m & s' & H & Hk & _).
  exists m, s'. rewrite Hk. auto.
Defined.

(** Generation with the toy keys succeeds. *)
Lemma generation_succeeds_demo :
  exists m s',
    init signing (Some wrapping) None None s0 = (Ok m, s')
    /\ is_Some (heap s' !! material_description m).
Proof.
  destruct (generate "AES" (Some 32%Z) 0) as [ck|e] eqn:Hg;
    [|discriminate Hg].
  destruct (generation_succeeds value generate signing wrapping None None s0 ∅
              "AES/256" (Some 32%Z) ck (rev (key ck))
              eq_refl (lookup_empty _) eq_refl eq_refl Hg eq_refl)
    as (m & s' & H & _ & Hm & _).
  exists m, s'. auto.
Defined.

(** A spec that names a family only. *)
Lemma spec_without_slash_demo :
  exists r s' cs,
    init signing (Some wrapping) None (Some 1%positive) (holding (d_spec "HmacSHA256"))
    = (r, s')
    /\ new_calls (holding (d_spec "HmacSHA256")) s'
       = CallGenerate "HmacSHA256" None :: cs.
Proof.
  destruct (init signing (Some wrapping) None (Some 1%positive)
              (holding (d_spec "HmacSHA256"))) as [r s'] eqn:H.
  assert (Hno : ~ In "/"%char (list_ascii_of_string "HmacSHA256")).
  { cbn. intros E. repeat destruct E as [E|E]; try discriminate E. exact E. }
  destruct (spec_without_slash value generate signing wrapping None
              (Some 1%positive) (holding (d_spec "HmacSHA256")) (d_spec "HmacSHA256")
              "HmacSHA256" r s'
              (holding_described _) (d_spec_wrapped_key _)
              (d_spec_content_algorithm _) Hno H)
    as (cs & Hc).
  exists r, s', cs. auto.
Defined.

(** ** Checks on concrete inputs *)

Example b64encode_foobar :
  Base64.b64encode (list_byte_of_string "foobar"%string) = list_byte_of_string "Zm9vYmFy"%string.
Proof. reflexivity. Qed.

Example b64encode_fooba :
  Base64.b64encode (list_byte_of_string "fooba"%string) = list_byte_of_string "Zm9vYmE="%string.
Proof. reflexivity. Qed.

Example b64encode_f :
  Base64.b64encode (list_byte_of_string "f"%string) = list_byte_of_string "Zg=="%string.
Proof. reflexivity. Qed.

Example a2b_base64_fooba :
  Base64.a2b_base64 (list_byte_of_string "Zm9v YmE="%string) = inr (list_byte_of_string "fooba"%string).
Proof. reflexivity. Qed.

Example a2b_base64_short :
  Base64.a2b_base64 (list_byte_of_string "Zm9vY"%string) = inl Base64.InvalidLength.
Proof. reflexivity. Qed.

Example a2b_base64_lenient :
  Base64.a2b_base64 (list_byte_of_string "A-Q_I D"%string) = inr [x01; x02; x03]
  /\ Base64.a2b_base64 (list_byte_of_string "AQ=ID"%string) = inr [x01; x02; x03]
  /\ Base64.a2b_base64 (list_byte_of_string "AQID===="%string) = inr [x01; x02; x03]
  /\ Base64.a2b_base64 (list_byte_of_string "===="%string) = inr []
  /\ Base64.a2b_base64 (list_byte_of_string "Zg==xx"%string) = inr ["f"%byte]
  /\ Base64.a2b_base64 (list_byte_of_string "AQI"%string) = inl Base64.IncorrectPadding
  /\ Base64.a2b_base64 (list_byte_of_string "A"%string) = inl Base64.InvalidLength.
Proof. repeat split; reflexivity. Qed.

Example split1_spec : Str.split1 "/" "AES/256" = ["AES"; "256"]%string.
Proof. reflexivity. Qed.

Example split1_nosep : Str.split1 "/" "AES" = ["AES"]%string.
Proof. reflexivity. Qed.

Example split1_empty_tail : Str.split1 "/" "AES/" = ["AES"; ""]%string.
Proof. reflexivity. Qed.

Example split1_first_only : Str.split1 "/" "a/b/c" = ["a"; "b/c"]%string.
Proof. reflexivity. Qed.

Example int_examples :
  Str.int "256" = Some 256%Z /\ Str.int " 256 " = Some 256%Z /\
  Str.int "+8" = Some 8%Z /\ Str.int "-8" = Some (-8)%Z /\
  Str.int "1_000" = Some 1000%Z /\ Str.int "007" = Some 7%Z /\
  Str.int "_1" = None /\ Str.int "1_" = None /\ Str.int "1__0" = None /\
  Str.int "" = None /\ Str.int "abc" = None /\ Str.int "- 5" = None /\
  Str.int "0x10" = None /\ Str.int "1.0" = None /\ Str.int "+" = None /\
  Str.int "+_1" = None /\ Str.int "5 5" = None.
Proof. repeat split; reflexivity. Qed.

Example int_latin1_space :
  Str.int (String (ascii_of_N 160) (String "5" (String (ascii_of_N 133) EmptyString)))
  = Some 5%Z
  /\ Str.int (String (ascii_of_N 28) "5") = None
  /\ Str.int (String (ascii_of_N 11) (String "7" (String (ascii_of_N 12) EmptyString)))
     = Some 7%Z.
Proof. repeat split; reflexivity. Qed.

Example key_length_examples :
  key_length "AES/256" = Ok (Some 32%Z)
  /\ key_length "AES/128" = Ok (Some 16%Z)
  /\ key_length "AES/100" = Ok (Some 12%Z)
  /\ key_length "AES" = Ok None
  /\ key_length "AES/-8" = Ok (Some (-1)%Z)
  /\ key_length "AES/256/GCM" = Raise (ValueError "invalid literal for int() with base 10")
  /\ key_length "AES/" = Raise (ValueError "invalid literal for int() with base 10").
Proof. repeat split; reflexivity. Qed.
